(** * descargador-videos: the video downloader API of [main.py]

    A shallow embedding of the two request handlers ([get_video_info],
    [download_video]) and of the filename sanitizer, with the properties
    of the repository's specification stated and proved over it.

    Python strings are modelled as [string]; the nine characters the
    sanitizer removes are ASCII, so the character-wise view taken here
    agrees with the UTF-8 encoding of any Python string. *)

From Stdlib Require Import ZArith Ascii String List Bool Lia.
From stdpp Require Import base option list strings pretty gmap fin_maps.

Local Open Scope string_scope.
Local Open Scope Z_scope.
Local Open Scope list_scope.

(* ===================================================================== *)
(** ** Python regular expressions, as far as [main.py] uses them *)
(* ===================================================================== *)

Module Re.

(** The double quote, written by its code so that string literals stay
    free of quote characters. *)
Definition dquote : ascii := "034"%char.
Definition backslash : ascii := "\"%char.

Definition is_alnum (c : ascii) : bool :=
  let n := nat_of_ascii c in
  ((48 <=? n) && (n <=? 57) || (65 <=? n) && (n <=? 90)
   || (97 <=? n) && (n <=? 122))%nat.

(** Members of a bracketed character class, read from the text between
    the brackets.  A backslash makes the next character a literal member
    (for a character that is not a letter or a digit); every other
    character stands for itself.  Ranges ([-]), a closing bracket inside
    the class and class escapes such as [\d] are not used by the program
    and are refused ([None]). *)
Fixpoint class_members (body : string) : option (list ascii) :=
  match body with
  | EmptyString => Some []
  | String c rest =>
      if Ascii.eqb c backslash then
        match rest with
        | EmptyString => None
        | String e rest' =>
            if is_alnum e then None
            else cons e <$> class_members rest'
        end
      else if Ascii.eqb c "-"%char || Ascii.eqb c "]"%char then None
      else cons c <$> class_members rest
  end.

(** Splits [s] before its last character. *)
Fixpoint split_last (s : string) : option (string * ascii) :=
  match s with
  | EmptyString => None
  | String c EmptyString => Some (EmptyString, c)
  | String c rest =>
      match split_last rest with
      | Some (init, l) => Some (String c init, l)
      | None => None
      end
  end.

(** [compile pattern]: the set of characters matched by a pattern of the
    shape [[...]], a single positive character class. *)
Definition compile (pattern : string) : option (list ascii) :=
  match pattern with
  | String "["%char rest =>
      match rest with
      | String "^"%char _ => None
      | _ =>
          match split_last rest with
          | Some (body, "]"%char) => class_members body
          | _ => None
          end
      end
  | _ => None
  end.

Definition matches (cls : list ascii) (c : ascii) : bool :=
  existsb (Ascii.eqb c) cls.

(** Left-to-right replacement of every match of a one-character
    pattern. *)
Fixpoint sub_class (cls : list ascii) (repl s : string) : string :=
  match s with
  | EmptyString => EmptyString
  | String c rest =>
      if matches cls c then repl +:+ sub_class cls repl rest
      else String c (sub_class cls repl rest)
  end.

(** [re.sub(pattern, repl, s)]; [None] stands for [re.error]. *)
Definition sub (pattern repl s : string) : option string :=
  cls ← compile pattern; Some (sub_class cls repl s).

End Re.

(* ===================================================================== *)
(** ** The filename sanitizer (main.py, lines 37-39) *)
(* ===================================================================== *)

(** The raw pattern literal of line 39, character for character: an
    opening bracket, two backslashes, then / * ? : (double quote) < > |
    and the closing bracket. *)
Definition invalid_pattern : string :=
  "[\\/*?:" +:+ String Re.dquote "<>|]".

(** [sanitize_filename(name)]: [re.sub] of that pattern with the empty
    replacement. *)
Definition sanitize_filename (name : string) : option string :=
  Re.sub invalid_pattern "" name.

(** The specification's words: the nine characters
    backslash, /, *, ?, :, double quote, <, > and |, and a string with
    every occurrence of them taken out. *)
Definition forbidden_chars : list ascii :=
  ["\"; "/"; "*"; "?"; ":"; Re.dquote; "<"; ">"; "|"]%char.

Definition is_forbidden (c : ascii) : bool :=
  bool_decide (c ∈ forbidden_chars).

Definition without_forbidden (s : string) : string :=
  string_of_list_ascii
    (List.filter (λ c, negb (is_forbidden c)) (list_ascii_of_string s)).

(* ===================================================================== *)
(** ** Python values and exceptions *)
(* ===================================================================== *)

Module Py.

(** The scalar values found in the extractor's dictionaries. *)
Inductive value :=
| VNone
| VBool (b : bool)
| VInt (n : Z)
| VStr (s : string).

(** Truth value of an object, as [or] and [if] take it. *)
Definition truthy (v : value) : bool :=
  match v with
  | VNone => false
  | VBool b => b
  | VInt n => negb (n =? 0)
  | VStr s => negb (String.eqb s "")
  end.

(** [a or b]: [a] when it is true, [b] otherwise. *)
Definition or_ (a b : value) : value := if truthy a then a else b.

(** [isinstance(v, int)]; [bool] is a subclass of [int]. *)
Definition isinstance_int (v : value) : bool :=
  match v with
  | VBool _ | VInt _ => true
  | _ => false
  end.

(** [str(v)], which is also how an f-string renders [v]. *)
Definition str (v : value) : string :=
  match v with
  | VNone => "None"
  | VBool true => "True"
  | VBool false => "False"
  | VInt n => pretty n
  | VStr s => s
  end.

(** [v != s] for a string literal [s]: only an equal string is equal. *)
Definition ne_str (v : value) (s : string) : bool :=
  match v with
  | VStr t => negb (String.eqb t s)
  | _ => true
  end.

(** A dictionary with string keys. *)
Abbreviation dict := (gmap string value).

(** [d.get(k)]: [None] for a missing key. *)
Definition get (d : dict) (k : string) : value := default VNone (d !! k).

(** An exception object.  [Exc] is any exception given by its class
    and its text; [HTTPException] is FastAPI's, which the framework
    turns into a response of that status. *)
Inductive exception :=
| Exc (cls text : string)
| HTTPException (status_code : Z) (detail : string).

(** [str(e)]. *)
Definition str_exc (e : exception) : string :=
  match e with
  | Exc _ text => text
  | HTTPException status_code detail =>
      pretty status_code +:+ ": " +:+ detail
  end.

Definition KeyError (k : string) : exception :=
  Exc "KeyError" ("'" +:+ k +:+ "'").
Definition TypeError (text : string) : exception := Exc "TypeError" text.
Definition ValidationError (field : string) : exception :=
  Exc "ValidationError" field.
Definition re_error : exception := Exc "re.error" "bad pattern".
Definition FileNotFoundError (path : string) : exception :=
  Exc "FileNotFoundError" path.

(** What a piece of code does: return, or raise. *)
Inductive result (A : Type) :=
| Ret (a : A)
| Raise (e : exception).
Arguments Ret {A} a.
Arguments Raise {A} e.

Definition bind {A B} (r : result A) (k : A → result B) : result B :=
  match r with
  | Ret a => k a
  | Raise e => Raise e
  end.

(** [d[k]]. *)
Definition getitem (d : dict) (k : string) : result value :=
  match d !! k with
  | Some v => Ret v
  | None => Raise (KeyError k)
  end.

End Py.

Import Py.

Declare Scope py_scope.
Delimit Scope py_scope with py.
Notation "'let*' x := c 'in' k" := (Py.bind c (λ x, k))
  (at level 10, x pattern, c at level 100, k at level 200)
  : py_scope.

(* ===================================================================== *)
(** ** The collaborators: yt-dlp and pydantic *)
(* ===================================================================== *)

(** The options dictionary handed to [YoutubeDL]. *)
Record ydl_opts := {
  opt_quiet : bool;
  opt_skip_download : bool;
  opt_format : option string;
  opt_outtmpl : option string;
  opt_no_warnings : bool;
  opt_user_agent : string
}.

Definition user_agent : string :=
  "Mozilla/5.0 (Windows NT 10.0; Win64; x64) AppleWebKit/537.36 (KHTML, like Gecko) Chrome/108.0.0.0 Safari/537.36".

(** The info dictionary of [extract_info], as far as the handlers read it:
    the title (when the key is there; any value) and the formats (when the
    key is there), which the extractor gives as a list of dictionaries. *)
Record info := {
  info_title : option value;
  info_formats : option (list dict)
}.

(** The extractor.  [extract_info] returns an info dictionary or raises;
    in download mode it also writes files, given here by their paths and
    contents; [prepare_filename] expands the output template. *)
Record YoutubeDL := {
  extract_info : ydl_opts → string → bool → result info;
  download_writes : ydl_opts → string → list (string * string);
  prepare_filename : ydl_opts → info → result string
}.

(** Validation of the response models' fields.  A [str] field takes a
    string as it is and an [Optional[int]] field takes [None] or an
    integer as it is; what other inputs are coerced to depends on the
    installed pydantic and is left open. *)
Class Pydantic := {
  validate_str : value → option string;
  validate_optional_int : value → option (option Z);
  validate_str_str : ∀ s, validate_str (VStr s) = Some s;
  validate_optional_int_None : validate_optional_int VNone = Some None;
  validate_optional_int_int :
    ∀ n, validate_optional_int (VInt n) = Some (Some n)
}.

(** Validation without any coercion. *)
Definition strict_str (v : value) : option string :=
  match v with VStr s => Some s | _ => None end.
Definition strict_optional_int (v : value) : option (option Z) :=
  match v with
  | VNone => Some None
  | VInt n => Some (Some n)
  | _ => None
  end.

#[export] Instance pydantic_strict : Pydantic := {|
  validate_str := strict_str;
  validate_optional_int := strict_optional_int;
  validate_str_str := λ _, eq_refl;
  validate_optional_int_None := eq_refl;
  validate_optional_int_int := λ _, eq_refl
|}.

Definition field {A} (name : string) (o : option A) : result A :=
  match o with
  | Some a => Ret a
  | None => Raise (ValidationError name)
  end.

(* ===================================================================== *)
(** ** The response models and the /info handler (main.py, lines 26-85) *)
(* ===================================================================== *)

Record VideoFormat := {
  format_id : string;
  quality : string;
  ext : string;
  filesize : option Z
}.

Record VideoInfoResponse := {
  title : string;
  formats : list VideoFormat
}.

Section info_handler.
Context `{Pydantic}.
Local Open Scope py_scope.

Definition info_opts : ydl_opts := {|
  opt_quiet := true;
  opt_skip_download := true;
  opt_format := None;
  opt_outtmpl := None;
  opt_no_warnings := true;
  opt_user_agent := user_agent
|}.

(** Line 67: the test a format passes to be listed. *)
Definition has_video_and_audio (f : dict) : bool :=
  ne_str (get f "vcodec") "none" && ne_str (get f "acodec") "none".

(** Lines 68-70 and the [str] of line 75. *)
Definition quality_label (f : dict) : string :=
  let quality_label := or_ (get f "format_note") (get f "height") in
  let quality_label :=
    if isinstance_int quality_label
    then VStr (str quality_label +:+ "p")
    else quality_label in
  str quality_label.

(** Lines 72-79: the arguments are evaluated in order, then the model
    validates them. *)
Definition make_video_format (f : dict) : result VideoFormat :=
  let* a_format_id := getitem f "format_id" in
  let a_quality := VStr (quality_label f) in
  let* a_ext := getitem f "ext" in
  let a_filesize := get f "filesize" in
  let* v_format_id := field "format_id" (validate_str a_format_id) in
  let* v_quality := field "quality" (validate_str a_quality) in
  let* v_ext := field "ext" (validate_str a_ext) in
  let* v_filesize := field "filesize" (validate_optional_int a_filesize) in
  Ret {| format_id := v_format_id; quality := v_quality;
         ext := v_ext; filesize := v_filesize |}.

(** Lines 65-79: the loop, appending to [video_formats]. *)
Fixpoint collect_formats (fs : list dict) (video_formats : list VideoFormat)
  : result (list VideoFormat) :=
  match fs with
  | [] => Ret video_formats
  | f :: rest =>
      if has_video_and_audio f then
        let* vf := make_video_format f in
        collect_formats rest (video_formats ++ [vf])
      else collect_formats rest video_formats
  end.

Definition no_formats_detail : string :=
  "No se encontraron formatos de video compatibles (video+audio).".

(** Line 84: [sanitize_filename(info.get(title, default))]. *)
Definition sanitized_title (i : info) : result string :=
  match default (VStr "video_sin_titulo") (info_title i) with
  | VStr t =>
      match sanitize_filename t with
      | Some t' => Ret t'
      | None => Raise re_error
      end
  | _ => Raise (TypeError "expected string or bytes-like object")
  end.

Definition get_video_info (ydl : YoutubeDL) (url : string)
  : result VideoInfoResponse :=
  match extract_info ydl info_opts url false with
  | Raise e =>
      Raise (HTTPException 400
               ("Error de yt-dlp al obtener info: " +:+ str_exc e))
  | Ret i =>
      let* video_formats :=
        collect_formats (default [] (info_formats i)) [] in
      match video_formats with
      | [] => Raise (HTTPException 404 no_formats_detail)
      | _ =>
          let* sanitized := sanitized_title i in
          let* v_title := field "title" (validate_str (VStr sanitized)) in
          Ret {| title := v_title; formats := video_formats |}
      end
  end.

(** The quality rule in the specification's first words: the note,
    whenever the format has one. *)
Definition quality_is_note_when_present : Prop :=
  ∀ (f : dict) (vf : VideoFormat) (note : string),
    has_video_and_audio f = true →
    make_video_format f = Ret vf →
    f !! "format_note" = Some (VStr note) →
    quality vf = note.

End info_handler.

(* ===================================================================== *)
(** ** Paths, the file system and the request's state *)
(* ===================================================================== *)

Module Os.

(** [s.endswith(c)] for a one-character [c]. *)
Fixpoint endswith (s : string) (c : ascii) : bool :=
  match s with
  | EmptyString => false
  | String x EmptyString => Ascii.eqb x c
  | String _ rest => endswith rest c
  end.

(** [os.path.join(a, b)] on POSIX. *)
Definition path_join (a b : string) : string :=
  if String.prefix "/" b then b
  else if String.eqb a "" || endswith a "/"%char then a +:+ b
  else a +:+ "/" +:+ b.

(** The text after the last [/] of [p], [cur] being what has been read
    since the last one. *)
Fixpoint after_last_sep (p cur : string) : string :=
  match p with
  | EmptyString => cur
  | String c rest =>
      if Ascii.eqb c "/"%char then after_last_sep rest ""
      else after_last_sep rest (cur +:+ String c "")
  end.

(** [os.path.basename(p)] on POSIX. *)
Definition basename (p : string) : string := after_last_sep p "".

Inductive node :=
| Dir
| File (content : string).

Abbreviation fs := (gmap string node).

(** [p] is [d] or lies below it. *)
Definition in_tree (d p : string) : bool :=
  String.eqb p d || String.prefix (d +:+ "/") p.

(** Writing a file: a directory of that name stays what it is. *)
Definition write_file (t : fs) (pc : string * string) : fs :=
  match t !! pc.1 with
  | Some Dir => t
  | _ => <[pc.1 := File pc.2]> t
  end.

(** [tempfile.mkdtemp()], [d] being the name it picks.  A failure of the
    operating system to create the directory is not modelled. *)
Definition mkdtemp (d : string) (t : fs) : fs := <[d := Dir]> t.

(** [shutil.rmtree(d)]: removes [d] and all below it, and raises when
    [d] is not a directory.  Other failures of the operating system
    (permissions, a busy file) are not modelled. *)
Definition rmtree (d : string) (t : fs) : result fs :=
  match t !! d with
  | Some Dir => Ret (filter (λ kv : string * node, ¬ in_tree d kv.1) t)
  | _ => Raise (FileNotFoundError d)
  end.

End Os.

Import Os.

(** A deferred call held by a [BackgroundTasks] object; the program only
    ever defers [shutil.rmtree]. *)
Inductive task :=
| Task_rmtree (d : string).

Record FileResponse := {
  path : string;
  media_type : string;
  filename : string
}.

(** What reaches the client. *)
Inductive sent :=
| SentFile (content_type suggested_name body : string)
| SentError (status_code : Z) (detail : string).

(** What happens while a request is served, in order. *)
Inductive event :=
| Mkdtemp (d : string)
| Extract (url : string) (download : bool)
| Rmtree (d : string)
| AddTask (t : task)
| Sent (r : sent)
| SendFailed.

#[export] Instance task_eq_dec : EqDecision task.
Proof. solve_decision. Defined.
#[export] Instance sent_eq_dec : EqDecision sent.
Proof. solve_decision. Defined.
#[export] Instance event_eq_dec : EqDecision event.
Proof. solve_decision. Defined.

Record world := {
  w_fs : gmap string node;
  w_events : list event;
  background_tasks : list task
}.

(** Code that runs in a world and returns or raises. *)
Definition M (A : Type) : Type := world → result A * world.

Definition ret {A} (a : A) : M A := λ w, (Ret a, w).
Definition raise {A} (e : exception) : M A := λ w, (Raise e, w).
Definition mbindM {A B} (c : M A) (k : A → M B) : M B :=
  λ w, match c w with
       | (Ret a, w') => k a w'
       | (Raise e, w') => (Raise e, w')
       end.
Definition liftM {A} (r : result A) : M A := λ w, (r, w).

(** [try: body except Exception as e: handler e]. *)
Definition try_except {A} (body : M A) (handler : exception → M A) : M A :=
  λ w, match body w with
       | (Ret a, w') => (Ret a, w')
       | (Raise e, w') => handler e w'
       end.

Declare Scope M_scope.
Delimit Scope M_scope with M.
Notation "x <- c ;; k" := (mbindM c (λ x, k))
  (at level 100, c at next level, right associativity) : M_scope.
Notation "c ;; k" := (mbindM c (λ _, k))
  (at level 100, right associativity) : M_scope.

Definition emit (e : event) (w : world) : world :=
  {| w_fs := w_fs w; w_events := w_events w ++ [e];
     background_tasks := background_tasks w |}.

Definition set_fs (t : gmap string node) (w : world) : world :=
  {| w_fs := t; w_events := w_events w;
     background_tasks := background_tasks w |}.

Definition do_mkdtemp (d : string) : M string :=
  λ w, (Ret d, emit (Mkdtemp d) (set_fs (mkdtemp d (w_fs w)) w)).

Definition do_rmtree (d : string) : M unit :=
  λ w, match rmtree d (w_fs w) with
       | Ret t => (Ret tt, emit (Rmtree d) (set_fs t w))
       | Raise e => (Raise e, w)
       end.

(** [background_tasks.add_task(shutil.rmtree, d)]. *)
Definition add_task (t : task) : M unit :=
  λ w, (Ret tt,
        emit (AddTask t)
          {| w_fs := w_fs w; w_events := w_events w;
             background_tasks := background_tasks w ++ [t] |}).

(** [ydl.extract_info(url, download=True)]: the files are written, then
    the call returns or raises. *)
Definition do_download (ydl : YoutubeDL) (opts : ydl_opts) (url : string)
  : M info :=
  λ w, (extract_info ydl opts url true,
        emit (Extract url true)
          (set_fs (foldl write_file (w_fs w) (download_writes ydl opts url))
             w)).

(* ===================================================================== *)
(** ** The /download handler (main.py, lines 88-127) *)
(* ===================================================================== *)

Definition download_opts (temp_dir format_id : string) : ydl_opts := {|
  opt_quiet := true;
  opt_skip_download := false;
  opt_format := Some format_id;
  opt_outtmpl := Some (path_join temp_dir "%(title)s.%(ext)s");
  opt_no_warnings := true;
  opt_user_agent := user_agent
|}.

Section download_handler.
Local Open Scope M_scope.

(** [tmp] is the name [tempfile.mkdtemp()] returns for this request. *)
Definition download_video (ydl : YoutubeDL) (tmp : string)
    (url format_id : string) : M FileResponse :=
  temp_dir <- do_mkdtemp tmp ;;
  let ydl_opts := download_opts temp_dir format_id in
  names <-
    try_except
      (i <- do_download ydl ydl_opts url ;;
       original_filename <- liftM (prepare_filename ydl ydl_opts i) ;;
       sanitized_basename <-
         liftM (match sanitize_filename (basename original_filename) with
                | Some s => Ret s
                | None => Raise re_error
                end) ;;
       ret (original_filename, sanitized_basename))
      (λ e,
         do_rmtree temp_dir ;;
         raise (HTTPException 500
                  ("Error de yt-dlp al descargar: " +:+ str_exc e))) ;;
  add_task (Task_rmtree temp_dir) ;;
  ret {| path := names.1;
         media_type := "application/octet-stream";
         filename := names.2 |}.

End download_handler.

(* ===================================================================== *)
(** ** The framework around a handler *)
(* ===================================================================== *)

(** FastAPI and Starlette are not part of the repository; this is the
    contract [download_video] relies on.  A [FileResponse] is sent by
    reading the file at its path, the background tasks run after the
    response has been sent, an [HTTPException] becomes a response of its
    status and any other exception a 500.  Whether the tasks still run
    when the file cannot be sent is left open ([tasks_after_failed_send]). *)
Module Framework.

Fixpoint run_tasks (ts : list task) (w : world) : world :=
  match ts with
  | [] => w
  | Task_rmtree d :: rest =>
      match do_rmtree d w with
      | (Ret _, w') => run_tasks rest w'
      | (Raise _, w') => w'
      end
  end.

Definition start (t : gmap string node) : world :=
  {| w_fs := t; w_events := []; background_tasks := [] |}.

Definition respond (tasks_after_failed_send : bool)
    (rw : result FileResponse * world) : world :=
  match rw with
  | (Ret r, w) =>
      match w_fs w !! path r with
      | Some (File body) =>
          run_tasks (background_tasks w)
            (emit (Sent (SentFile (media_type r) (filename r) body)) w)
      | _ =>
          if tasks_after_failed_send
          then run_tasks (background_tasks w) (emit SendFailed w)
          else emit SendFailed w
      end
  | (Raise (HTTPException status_code detail), w) =>
      emit (Sent (SentError status_code detail)) w
  | (Raise (Exc _ _), w) =>
      emit (Sent (SentError 500 "Internal Server Error")) w
  end.

(** One /download request, from the creation of its [BackgroundTasks]
    to the end of the response. *)
Definition serve_download (tasks_after_failed_send : bool)
    (ydl : YoutubeDL) (tmp url format_id : string)
    (t : gmap string node) : world :=
  respond tasks_after_failed_send
    (download_video ydl tmp url format_id (start t)).

End Framework.

(* ===================================================================== *)
(** ** Notions used in the statements about /download *)
(* ===================================================================== *)

(** The file system once the directory exists and the extractor has
    written its files. *)
Definition after_download (ydl : YoutubeDL) (tmp url format_id : string)
    (t : gmap string node) : gmap string node :=
  foldl write_file (mkdtemp tmp t)
    (download_writes ydl (download_opts tmp format_id) url).

(** What the [try] block of [download_video] computes: the path the
    extractor names and its sanitized base name. *)
Definition try_block (ydl : YoutubeDL) (opts : ydl_opts) (url : string)
  : result (string * string) :=
  (let* i := extract_info ydl opts url true in
   let* original_filename := prepare_filename ydl opts i in
   Ret (original_filename, without_forbidden (basename original_filename)))%py.


(** The life of the temporary directory as the specification states it:
    [tmp] is removed exactly once, either after the file has been sent or
    before anything is sent and right before the error response, and it
    is gone at the end. *)
Definition removed_once (tmp : string) (w : world) : Prop :=
  (∃ before after,
     w_events w = before ++ Rmtree tmp :: after ∧
     (Rmtree tmp ∉ before) ∧ (Rmtree tmp ∉ after) ∧
     ((∃ ct name body, Sent (SentFile ct name body) ∈ before)
      ∨ ((∀ r, Sent r ∉ before) ∧
         ∃ status detail, after = [Sent (SentError status detail)])))
  ∧ w_fs w !! tmp = None.

(* ===================================================================== *)
(** ** Concrete requests *)
(* ===================================================================== *)

Module Examples.

(** A format with picture and sound, 720 lines high, without a note. *)
Definition fmt_22 : dict :=
  <["vcodec" := VStr "avc1"]>
    (<["acodec" := VStr "mp4a"]>
       (<["height" := VInt 720]>
          (<["ext" := VStr "mp4"]>
             (<["format_id" := VStr "22"]> ∅)))).

(** The same format with a note that is there and empty. *)
Definition fmt_empty_note : dict := <["format_note" := VStr ""]> fmt_22.

(** The same format with a note. *)
Definition fmt_hd : dict := <["format_note" := VStr "hd720"]> fmt_22.

(** A format without picture. *)
Definition fmt_audio_only : dict := <["vcodec" := VStr "none"]> fmt_22.

Definition url : string := "https://example.com/watch?v=abc".
Definition tmp : string := "/tmp/tmp8x2kq1".
Definition produced : string := "/tmp/tmp8x2kq1/My:Video.mp4".

Definition an_info (fs : list dict) : info :=
  {| info_title := Some (VStr "My:Video"); info_formats := Some fs |}.

(** The extractor reports [fs]; a download writes the file. *)
Definition ydl_reporting (fs : list dict) : YoutubeDL := {|
  extract_info := λ _ _ _, Ret (an_info fs);
  download_writes := λ _ _, [(produced, "the bytes")];
  prepare_filename := λ _ _, Ret produced
|}.

(** The extractor fails. *)
Definition unsupported : exception :=
  Exc "DownloadError" "ERROR: Unsupported URL: https://example.com/watch?v=abc".

Definition ydl_failing : YoutubeDL := {|
  extract_info := λ _ _ _, Raise unsupported;
  download_writes := λ _ _, [];
  prepare_filename := λ _ _, Ret produced
|}.

(** The extractor reports success and names a file it has not left on
    disk. *)
Definition ydl_no_file : YoutubeDL := {|
  extract_info := λ _ _ _, Ret (an_info [fmt_22]);
  download_writes := λ _ _, [];
  prepare_filename := λ _ _, Ret produced
|}.

(** A download that succeeds: the response the handler returns and the
    world it leaves. *)
Definition a_response : FileResponse :=
  {| path := produced; media_type := "application/octet-stream";
     filename := "MyVideo.mp4" |}.

Definition world_at_return : world :=
  (download_video (ydl_reporting [fmt_22]) tmp url "22"
     (Framework.start ∅)).2.

End Examples.

(* ===================================================================== *)
(** ** Notions used in the further statements *)
(* ===================================================================== *)

(** A format record the handler can list: a string id, a string
    extension, and a size that is missing, [None] or an integer. *)
Definition well_formed (f : dict) : Prop :=
  (∃ s, f !! "format_id" = Some (VStr s)) ∧
  (∃ s, f !! "ext" = Some (VStr s)) ∧
  (get f "filesize" = VNone ∨ ∃ n, get f "filesize" = VInt n).

(** The entry a well-formed record is listed as. *)
Definition listed (f : dict) : VideoFormat :=
  {| format_id := str (get f "format_id");
     quality := quality_label f;
     ext := str (get f "ext");
     filesize := match get f "filesize" with
                 | VInt n => Some n
                 | _ => None
                 end |}.

(** The title a response carries for a string title or a missing one. *)
Definition listed_title (i : info) : string :=
  match info_title i with
  | Some (VStr t) => without_forbidden t
  | _ => "video_sin_titulo"
  end.

(** The info dictionary with its formats replaced. *)
Definition with_formats (i : info) (fs : list dict) : info :=
  {| info_title := info_title i; info_formats := Some fs |}.

(** [n] has no path separator. *)
Definition slash_free (n : string) : Prop :=
  ¬ In "/"%char (list_ascii_of_string n).

Module MoreExamples.

(** A format with a note and a size. *)
Definition fmt_sized : dict :=
  <["filesize" := VInt 1048576]> Examples.fmt_hd.

(** A format with picture and sound and no id. *)
Definition fmt_no_id : dict := delete "format_id" Examples.fmt_22.

(** The extractor reports [fs] under a given title entry. *)
Definition ydl_titled (t : option value) (fs : list dict) : YoutubeDL := {|
  extract_info := λ _ _ _,
    Ret {| info_title := t; info_formats := Some fs |};
  download_writes := λ _ _, [];
  prepare_filename := λ _ _, Ret Examples.produced
|}.

(** The download goes through and the file name cannot be computed. *)
Definition no_template : exception :=
  Exc "ValueError" "unsupported format character".

Definition ydl_prepare_fails : YoutubeDL := {|
  extract_info := λ _ _ _, Ret (Examples.an_info [Examples.fmt_22]);
  download_writes := λ _ _, [(Examples.produced, "the bytes")];
  prepare_filename := λ _ _, Raise no_template
|}.

(** A file that was on disk before the request. *)
Definition disk_before : gmap string node :=
  <["/srv/keep.txt" := File "kept"]> ∅.

End MoreExamples.

(* ===================================================================== *)
(** * Properties *)
(* ===================================================================== *)

(** ** The sanitizer *)

Section sanitizer.

Lemma compile_invalid_pattern :
  Re.compile invalid_pattern = Some forbidden_chars.
Proof. reflexivity. Qed.

Lemma matches_elem_of (cls : list ascii) (c : ascii) :
  Re.matches cls c = bool_decide (c ∈ cls).
Proof.
  unfold Re.matches.
  induction cls as [|a cls IH]; cbn [existsb].
  - symmetry. apply bool_decide_eq_false. apply not_elem_of_nil.
  - destruct (Ascii.eqb_spec c a) as [->|Hne]; cbn [orb].
    + symmetry. apply bool_decide_eq_true. rewrite elem_of_cons. by left.
    + rewrite IH. apply bool_decide_ext. rewrite elem_of_cons. tauto.
Qed.

Lemma sub_class_without_forbidden (s : string) :
  Re.sub_class forbidden_chars "" s = without_forbidden s.
Proof.
  unfold without_forbidden.
  induction s as [|c s IH]; [done|].
  cbn [Re.sub_class list_ascii_of_string List.filter].
  rewrite matches_elem_of. fold (is_forbidden c).
  destruct (is_forbidden c); simpl; by rewrite IH.
Qed.

Lemma sanitize_filename_eq (s : string) :
  sanitize_filename s = Some (without_forbidden s).
Proof.
  unfold sanitize_filename, Re.sub.
  rewrite compile_invalid_pattern. simpl.
  by rewrite sub_class_without_forbidden.
Qed.

Lemma without_forbidden_chars (s : string) :
  list_ascii_of_string (without_forbidden s)
  = List.filter (λ c, negb (is_forbidden c)) (list_ascii_of_string s).
Proof. apply list_ascii_of_string_of_list_ascii. Qed.

Lemma without_forbidden_clean (s : string) (c : ascii) :
  In c (list_ascii_of_string (without_forbidden s)) → is_forbidden c = false.
Proof.
  rewrite without_forbidden_chars, filter_In.
  intros [_ Hc]. by apply negb_true_iff.
Qed.

Lemma filter_twice {A} (p : A → bool) (l : list A) :
  List.filter p (List.filter p l) = List.filter p l.
Proof.
  induction l as [|x l IH]; simpl; [done|].
  destruct (p x) eqn:Hx; simpl; rewrite ?Hx, IH; done.
Qed.

Lemma without_forbidden_idemp (s : string) :
  without_forbidden (without_forbidden s) = without_forbidden s.
Proof.
  unfold without_forbidden at 1.
  rewrite without_forbidden_chars, filter_twice. done.
Qed.

End sanitizer.

(** C2. For every string [s], [sanitize_filename s] returns (it never
    fails) [s] with every occurrence of the nine characters backslash, /,
    *, ?, :, double quote, <, > and | removed and every other character
    kept in its original order: the result's characters are those of [s]
    filtered by not being one of the nine. *)
Theorem sanitize_filename_removes_exactly (s : string) :
  ∃ out,
    sanitize_filename s = Some out ∧
    list_ascii_of_string out
    = List.filter (λ c, negb (bool_decide (c ∈ forbidden_chars)))
        (list_ascii_of_string s) ∧
    forbidden_chars
    = ["\"; "/"; "*"; "?"; ":"; "034"; "<"; ">"; "|"]%char.
Proof.
  exists (without_forbidden s). split; [apply sanitize_filename_eq|].
  split; [apply without_forbidden_chars | reflexivity].
Qed.

(** C8. The sanitizer is idempotent: sanitizing the result of
    [sanitize_filename s] gives that result again. *)
Theorem sanitize_filename_idempotent (s : string) :
  sanitize_filename s ≫= sanitize_filename = sanitize_filename s.
Proof.
  rewrite !sanitize_filename_eq. simpl.
  by rewrite sanitize_filename_eq, without_forbidden_idemp.
Qed.

(** ** The /info handler *)

Section info_lemmas.
Context `{Pydantic}.

Lemma ne_str_true (v : value) (s : string) :
  ne_str v s = true ↔ v ≠ VStr s.
Proof.
  destruct v as [| |n|t]; simpl; try (split; [discriminate|done]).
  rewrite negb_true_iff. destruct (String.eqb_spec t s); split; congruence.
Qed.

Lemma has_video_and_audio_true (f : dict) :
  has_video_and_audio f = true
  ↔ get f "vcodec" ≠ VStr "none" ∧ get f "acodec" ≠ VStr "none".
Proof.
  unfold has_video_and_audio.
  by rewrite andb_true_iff, !ne_str_true.
Qed.

(** A record that lacks a codec key passes the test: [get] gives [None],
    which differs from the string none. *)
Lemma has_video_and_audio_missing_keys (f : dict) :
  f !! "vcodec" = None → f !! "acodec" = None →
  has_video_and_audio f = true.
Proof.
  intros Hv Ha. unfold has_video_and_audio, get. by rewrite Hv, Ha.
Qed.

(** The loop returns what it started with, followed by the model of each
    format that passes the test, in the extractor's order. *)
Lemma collect_formats_Ret (fs : list dict) (acc out : list VideoFormat) :
  collect_formats fs acc = Ret out →
  ∃ vs, out = acc ++ vs ∧
        Forall2 (λ f vf, make_video_format f = Ret vf)
          (List.filter has_video_and_audio fs) vs.
Proof.
  revert acc. induction fs as [|f fs IH]; intros acc; simpl.
  - intros [= <-]. exists []. by rewrite app_nil_r.
  - destruct (has_video_and_audio f); [|by apply IH].
    destruct (make_video_format f) as [vf|e] eqn:Hvf; simpl; [|done].
    intros (vs & -> & Hvs)%IH. exists (vf :: vs).
    split; [by rewrite <- app_assoc | by constructor].
Qed.

Lemma collect_formats_none (fs : list dict) (acc : list VideoFormat) :
  List.filter has_video_and_audio fs = [] → collect_formats fs acc = Ret acc.
Proof.
  induction fs as [|f fs IH]; simpl; [done|].
  destruct (has_video_and_audio f); [done | apply IH].
Qed.

Lemma get_video_info_Ret (ydl : YoutubeDL) (url : string)
    (resp : VideoInfoResponse) :
  get_video_info ydl url = Ret resp →
  ∃ i, extract_info ydl info_opts url false = Ret i ∧
       collect_formats (default [] (info_formats i)) [] = Ret (formats resp) ∧
       formats resp ≠ [] ∧
       sanitized_title i = Ret (title resp).
Proof.
  unfold get_video_info.
  destruct (extract_info ydl info_opts url false) as [i|e]; [|done].
  destruct (collect_formats _ _) as [[|vf vfs]|e] eqn:Hloop; simpl;
    try done.
  destruct (sanitized_title i) as [t|e] eqn:Ht; simpl; [|done].
  rewrite validate_str_str. simpl. intros [= <-]. by exists i.
Qed.

End info_lemmas.

(** C1. In every successful response of the /info handler, every entry
    of [formats] is the model of a format record reported by the
    extractor whose video codec and audio codec are both different from
    the string none; and the entries are those records' models in the
    extractor's order. *)
Theorem info_formats_have_video_and_audio `{Pydantic}
    (ydl : YoutubeDL) (url : string) (resp : VideoInfoResponse) :
  get_video_info ydl url = Ret resp →
  ∃ i, extract_info ydl info_opts url false = Ret i ∧
       Forall2 (λ f vf, make_video_format f = Ret vf)
         (List.filter has_video_and_audio (default [] (info_formats i)))
         (formats resp) ∧
       Forall (λ vf, ∃ f, In f (default [] (info_formats i)) ∧
                          get f "vcodec" ≠ VStr "none" ∧
                          get f "acodec" ≠ VStr "none" ∧
                          make_video_format f = Ret vf)
         (formats resp).
Proof.
  intros (i & Hi & (vs & Hvs & Hall)%collect_formats_Ret & _ & _)%get_video_info_Ret.
  simpl in Hvs. subst vs. exists i. split; [done|]. split; [done|].
  revert Hall. generalize (default [] (info_formats i)) as fs.
  intros fs Hall.
  assert (Hin : ∀ f, In f (List.filter has_video_and_audio fs) →
                     In f fs ∧ get f "vcodec" ≠ VStr "none"
                     ∧ get f "acodec" ≠ VStr "none").
  { intros f [Hf Hk]%filter_In. by apply has_video_and_audio_true in Hk. }
  induction Hall as [|f vf fs' vs Hmk Hall IH]; constructor.
  - exists f. destruct (Hin f) as (? & ? & ?); [by left | done].
  - apply IH. intros g Hg. apply Hin. by right.
Qed.

Lemma info_formats_have_video_and_audio_witness :
  ∃ i, extract_info (Examples.ydl_reporting
                       [Examples.fmt_audio_only; Examples.fmt_22])
         info_opts Examples.url false = Ret i ∧
       Forall2 (λ f vf, make_video_format f = Ret vf)
         (List.filter has_video_and_audio (default [] (info_formats i)))
         [{| format_id := "22"; quality := "720p"; ext := "mp4";
             filesize := None |}] ∧
       Forall (λ vf, ∃ f, In f (default [] (info_formats i)) ∧
                          get f "vcodec" ≠ VStr "none" ∧
                          get f "acodec" ≠ VStr "none" ∧
                          make_video_format f = Ret vf)
         [{| format_id := "22"; quality := "720p"; ext := "mp4";
             filesize := None |}].
Proof.
  apply (info_formats_have_video_and_audio
           (Examples.ydl_reporting [Examples.fmt_audio_only; Examples.fmt_22])
           Examples.url
           {| title := "MyVideo";
              formats := [{| format_id := "22"; quality := "720p";
                             ext := "mp4"; filesize := None |}] |}).
  vm_compute. reflexivity.
Defined.

Section quality_lemmas.
Context `{Pydantic}.

Lemma make_video_format_quality (f : dict) (vf : VideoFormat) :
  make_video_format f = Ret vf → quality vf = quality_label f.
Proof.
  unfold make_video_format.
  destruct (getitem f "format_id") as [a|?]; simpl; [|done].
  destruct (getitem f "ext") as [b|?]; simpl; [|done].
  destruct (validate_str a); simpl; [|done].
  rewrite validate_str_str. simpl.
  destruct (validate_str b); simpl; [|done].
  destruct (validate_optional_int _); simpl; [|done].
  by intros [= <-].
Qed.

(** A record with a string id, a string extension and no size. *)
Lemma make_video_format_plain (f : dict) (fid e : string) :
  f !! "format_id" = Some (VStr fid) →
  f !! "ext" = Some (VStr e) →
  f !! "filesize" = None →
  make_video_format f
  = Ret {| format_id := fid; quality := quality_label f; ext := e;
           filesize := None |}.
Proof.
  intros Hid Hext Hsize. unfold make_video_format, getitem, get.
  rewrite Hid, Hext, Hsize. simpl.
  rewrite !validate_str_str, validate_optional_int_None. done.
Qed.

Lemma quality_label_note (f : dict) (note : string) :
  get f "format_note" = VStr note → note ≠ "" → quality_label f = note.
Proof.
  intros Hn Hne. unfold quality_label, or_. rewrite Hn. simpl.
  destruct (String.eqb_spec note ""); [done|]. done.
Qed.

Lemma quality_label_no_note (f : dict) :
  get f "format_note" = VNone ∨ get f "format_note" = VStr "" →
  quality_label f
  = if isinstance_int (get f "height")
    then str (get f "height") +:+ "p"
    else str (get f "height").
Proof.
  intros Hn. unfold quality_label, or_.
  destruct Hn as [-> | ->]; simpl;
    destruct (isinstance_int (get f "height")); done.
Qed.

End quality_lemmas.

(** C3, as the specification words it, fails: a format whose note is
    there and empty (with height 720) is listed with quality [720p], not
    with its note. *)
Lemma quality_empty_note_counterexample :
  ¬ ∃ P : Pydantic, @quality_is_note_when_present P.
Proof.
  intros [P Hclaim].
  specialize (Hclaim Examples.fmt_empty_note
                {| format_id := "22"; quality := "720p"; ext := "mp4";
                   filesize := None |} "").
  simpl in Hclaim. discriminate Hclaim.
  - vm_compute. reflexivity.
  - by rewrite (make_video_format_plain _ "22" "mp4").
  - vm_compute. reflexivity.
Qed.

(** The label when the note is missing or false in Python's sense. *)
Lemma quality_label_falsy_note (f : dict) :
  truthy (get f "format_note") = false →
  quality_label f
  = if isinstance_int (get f "height")
    then str (get f "height") +:+ "p"
    else str (get f "height").
Proof.
  intros Hn. unfold quality_label, or_. rewrite Hn.
  by destruct (isinstance_int (get f "height")).
Qed.

(** The label when the note is a true value that is an integer. *)
Lemma quality_label_number_note (f : dict) :
  truthy (get f "format_note") = true →
  isinstance_int (get f "format_note") = true →
  quality_label f = str (get f "format_note") +:+ "p".
Proof.
  intros Hn Hint. unfold quality_label, or_. by rewrite Hn, Hint.
Qed.

(** A note is a non-empty string, an integer that is true, or false. *)
Lemma note_cases (v : value) :
  (∃ note, v = VStr note ∧ note ≠ "")
  ∨ (truthy v = true ∧ isinstance_int v = true)
  ∨ truthy v = false.
Proof.
  destruct v as [|[|]|n|note]; cbn [truthy isinstance_int].
  - by right; right.
  - by right; left.
  - by right; right.
  - destruct (n =? 0); cbn [negb]; [by right; right | by right; left].
  - destruct (String.eqb_spec note "") as [->|Hne]; cbn [negb].
    + by right; right.
    + left. by exists note.
Qed.

(** C3, amended. For every format the /info handler lists, the quality
    is the note when the note is a non-empty string.  When the note is
    missing or false in Python's sense (no key, [None], the empty string,
    0, [False]) it is the [str] of the height entry followed by p if that
    entry is an [int] as [isinstance] has it (so an integer height h
    gives h followed by p, and a boolean one gives [Truep] or [Falsep]),
    and the [str] of the height entry otherwise ([None] when there is
    none).  A note that is itself a true integer is rendered as its [str]
    followed by p.  These cases cover every note.  A format without
    note, of height 720, extension mp4, id 22 and without size is listed
    as id 22, quality 720p, extension mp4 and no size; the title
    [My:Video] is answered as [MyVideo]. *)
Theorem quality_of_listed_format `{Pydantic} (f : dict) (vf : VideoFormat) :
  make_video_format f = Ret vf →
  (∀ note, get f "format_note" = VStr note → note ≠ "" →
           quality vf = note) ∧
  (truthy (get f "format_note") = true →
   isinstance_int (get f "format_note") = true →
   quality vf = str (get f "format_note") +:+ "p") ∧
  (truthy (get f "format_note") = false →
   (isinstance_int (get f "height") = true →
    quality vf = str (get f "height") +:+ "p") ∧
   (∀ h, get f "height" = VInt h → quality vf = pretty h +:+ "p") ∧
   (∀ b, get f "height" = VBool b →
         quality vf = (if b then "True" else "False") +:+ "p") ∧
   (isinstance_int (get f "height") = false →
    quality vf = str (get f "height")) ∧
   (f !! "height" = None → quality vf = "None")) ∧
  ((∃ note, get f "format_note" = VStr note ∧ note ≠ "")
   ∨ (truthy (get f "format_note") = true
      ∧ isinstance_int (get f "format_note") = true)
   ∨ truthy (get f "format_note") = false) ∧
  (f !! "format_note" = None → f !! "height" = Some (VInt 720) →
   f !! "ext" = Some (VStr "mp4") → f !! "format_id" = Some (VStr "22") →
   f !! "filesize" = None →
   vf = {| format_id := "22"; quality := "720p"; ext := "mp4";
           filesize := None |}) ∧
  (∀ i, info_title i = Some (VStr "My:Video") →
        sanitized_title i = Ret "MyVideo") ∧
  get_video_info (Examples.ydl_reporting [Examples.fmt_22]) Examples.url
  = Ret {| title := "MyVideo";
           formats := [{| format_id := "22"; quality := "720p";
                          ext := "mp4"; filesize := None |}] |}.
Proof.
  intros Hmk. pose proof (make_video_format_quality f vf Hmk) as Hq.
  assert (Htitle : ∀ i, info_title i = Some (VStr "My:Video") →
                        sanitized_title i = Ret "MyVideo").
  { intros i Hi. unfold sanitized_title. rewrite Hi. cbn [from_option id].
    by rewrite sanitize_filename_eq. }
  split; [|split; [|split; [|split; [|split; [|split]]]]].
  - intros note Hn Hne. rewrite Hq. by apply quality_label_note.
  - intros Hn Hint. rewrite Hq. by apply quality_label_number_note.
  - intros Hn. rewrite Hq, (quality_label_falsy_note f Hn).
    split; [|split; [|split; [|split]]].
    + by intros ->.
    + intros h Hh. by rewrite Hh.
    + intros b Hb. rewrite Hb. by destruct b.
    + by intros ->.
    + intros Hh. unfold get. by rewrite Hh.
  - apply note_cases.
  - intros Hnote Hheight Hext Hid Hsize.
    rewrite (make_video_format_plain f "22" "mp4") in Hmk by done.
    injection Hmk as <-. f_equal.
    rewrite quality_label_falsy_note by (unfold get; by rewrite Hnote).
    unfold get. by rewrite Hheight.
  - exact Htitle.
  - unfold get_video_info. cbn [extract_info Examples.ydl_reporting].
    cbn [Examples.an_info info_formats from_option id collect_formats].
    replace (has_video_and_audio Examples.fmt_22) with true
      by (vm_compute; reflexivity).
    rewrite (make_video_format_plain _ "22" "mp4")
      by (vm_compute; reflexivity).
    replace (quality_label Examples.fmt_22) with "720p"
      by (vm_compute; reflexivity).
    cbn [Py.bind app].
    rewrite (Htitle (Examples.an_info [Examples.fmt_22]) eq_refl).
    cbn [Py.bind].
    rewrite validate_str_str. reflexivity.
Qed.

Lemma quality_of_listed_format_witness :
  make_video_format Examples.fmt_hd
  = Ret {| format_id := "22"; quality := "hd720"; ext := "mp4";
           filesize := None |} ∧
  quality {| format_id := "22"; quality := "hd720"; ext := "mp4";
             filesize := None |} = "hd720".
Proof.
  assert (Hmk : make_video_format Examples.fmt_hd
                = Ret {| format_id := "22"; quality := "hd720"; ext := "mp4";
                         filesize := None |}) by (vm_compute; reflexivity).
  split; [exact Hmk|].
  destruct (quality_of_listed_format Examples.fmt_hd _ Hmk) as [Hnote _].
  apply (Hnote "hd720"); [vm_compute; reflexivity | discriminate].
Defined.

(** C4. When the extractor succeeds and no format passes the
    video-and-audio test, the /info handler raises [HTTPException] with
    status 404 and its explanatory message; and a successful response
    never has an empty [formats] list. *)
Theorem info_no_formats_404 `{Pydantic} (ydl : YoutubeDL) (url : string) :
  (∀ i, extract_info ydl info_opts url false = Ret i →
        List.filter has_video_and_audio (default [] (info_formats i)) = [] →
        get_video_info ydl url = Raise (HTTPException 404 no_formats_detail))
  ∧ (∀ resp, get_video_info ydl url = Ret resp → formats resp ≠ [])
  ∧ no_formats_detail
    = "No se encontraron formatos de video compatibles (video+audio).".
Proof.
  split; [|split; [|reflexivity]].
  - intros i Hi Hnone. unfold get_video_info. rewrite Hi.
    by rewrite collect_formats_none.
  - by intros resp (i & _ & _ & Hne & _)%get_video_info_Ret.
Qed.

Lemma info_no_formats_404_witness :
  get_video_info (Examples.ydl_reporting [Examples.fmt_audio_only])
    Examples.url
  = Raise (HTTPException 404 no_formats_detail).
Proof.
  apply (info_no_formats_404
           (Examples.ydl_reporting [Examples.fmt_audio_only]) Examples.url)
    with (i := Examples.an_info [Examples.fmt_audio_only]).
  - reflexivity.
  - vm_compute. reflexivity.
Defined.

(** C7. When the extractor call of the /info handler raises, the handler
    raises [HTTPException] with status 400 whose detail ends with the
    text of the extractor's exception. *)
Theorem info_extractor_failure_400 `{Pydantic}
    (ydl : YoutubeDL) (url : string) (e : exception) :
  extract_info ydl info_opts url false = Raise e →
  get_video_info ydl url
  = Raise (HTTPException 400
             ("Error de yt-dlp al obtener info: " +:+ str_exc e)).
Proof. intros He. unfold get_video_info. by rewrite He. Qed.

Lemma info_extractor_failure_400_witness :
  get_video_info Examples.ydl_failing Examples.url
  = Raise (HTTPException 400
             ("Error de yt-dlp al obtener info: "
              +:+ str_exc Examples.unsupported)).
Proof.
  apply (info_extractor_failure_400 Examples.ydl_failing Examples.url
           Examples.unsupported).
  reflexivity.
Defined.

(** ** The file system *)

Section fs_lemmas.

Lemma in_tree_refl (d : string) : in_tree d d = true.
Proof. unfold in_tree. by rewrite String.eqb_refl. Qed.

Lemma write_file_dir (t : gmap string node) (pc : string * string)
    (d : string) :
  t !! d = Some Dir → write_file t pc !! d = Some Dir.
Proof.
  intros Hd. unfold write_file. destruct pc as [p c]. simpl.
  destruct (t !! p) as [[|c']|] eqn:Hp; [done| |];
    (rewrite lookup_insert_ne; [done|]); intros ->; congruence.
Qed.

Lemma writes_keep_dir (l : list (string * string))
    (t : gmap string node) (d : string) :
  t !! d = Some Dir → foldl write_file t l !! d = Some Dir.
Proof.
  revert t. induction l as [|pc l IH]; intros t Hd; simpl; [done|].
  apply IH. by apply write_file_dir.
Qed.

Lemma after_download_dir (ydl : YoutubeDL) (tmp url format_id : string)
    (t : gmap string node) :
  after_download ydl tmp url format_id t !! tmp = Some Dir.
Proof.
  apply writes_keep_dir. unfold mkdtemp. apply lookup_insert_eq.
Qed.

Lemma rmtree_dir (d : string) (t : gmap string node) :
  t !! d = Some Dir →
  rmtree d t = Ret (filter (λ kv : string * node, ¬ in_tree d kv.1) t).
Proof. intros Hd. unfold rmtree. by rewrite Hd. Qed.

Lemma removed_tree_lookup (d p : string) (t : gmap string node) :
  filter (λ kv : string * node, ¬ in_tree d kv.1) t !! p
  = if in_tree d p then None else t !! p.
Proof.
  destruct (in_tree d p) eqn:Hp.
  - apply map_lookup_filter_None. right. intros x _ Hx. simpl in Hx.
    apply Hx. by rewrite Hp.
  - destruct (t !! p) as [x|] eqn:Hx.
    + apply map_lookup_filter_Some. split; [done|]. simpl.
      rewrite Hp. intros [].
    + apply map_lookup_filter_None. by left.
Qed.

End fs_lemmas.

(** ** The /download handler *)

Section download_lemmas.
Variables (ydl : YoutubeDL) (tmp url format_id : string).

Let opts := download_opts tmp format_id.

(** The handler, run from any world: what it returns or raises and the
    world it leaves, by what its [try] block computes. *)
Lemma download_video_run (w : world) :
  download_video ydl tmp url format_id w
  = match try_block ydl opts url with
    | Ret pn =>
        (Ret {| path := pn.1; media_type := "application/octet-stream";
                filename := pn.2 |},
         {| w_fs := after_download ydl tmp url format_id (w_fs w);
            w_events := w_events w
                        ++ [Mkdtemp tmp; Extract url true;
                            AddTask (Task_rmtree tmp)];
            background_tasks := background_tasks w ++ [Task_rmtree tmp] |})
    | Raise e =>
        (Raise (HTTPException 500
                  ("Error de yt-dlp al descargar: " +:+ str_exc e)),
         {| w_fs := filter (λ kv : string * node, ¬ in_tree tmp kv.1)
                      (after_download ydl tmp url format_id (w_fs w));
            w_events := w_events w
                        ++ [Mkdtemp tmp; Extract url true; Rmtree tmp];
            background_tasks := background_tasks w |})
    end.
Proof.
  pose proof (after_download_dir ydl tmp url format_id (w_fs w)) as Hdir.
  unfold download_video, try_block, mbindM, try_except, do_mkdtemp,
    do_download, liftM, ret, raise, add_task, do_rmtree, emit, set_fs.
  unfold after_download in *. fold opts in Hdir |- *.
  destruct (extract_info ydl opts url true) as [i|e]; cbn [Py.bind].
  - destruct (prepare_filename ydl opts i) as [p|e]; cbn [Py.bind].
    + rewrite sanitize_filename_eq.
      cbn [w_fs w_events background_tasks fst snd].
      by rewrite <- !app_assoc.
    + cbn [w_fs w_events background_tasks].
      rewrite (rmtree_dir _ _ Hdir). by rewrite <- !app_assoc.
  - cbn [w_fs w_events background_tasks].
    rewrite (rmtree_dir _ _ Hdir). by rewrite <- !app_assoc.
Qed.

Lemma try_block_Ret (p n : string) :
  try_block ydl opts url = Ret (p, n) →
  ∃ i, extract_info ydl opts url true = Ret i ∧
       prepare_filename ydl opts i = Ret p ∧
       sanitize_filename (basename p) = Some n.
Proof.
  unfold try_block.
  destruct (extract_info ydl opts url true) as [i|e]; [|done].
  cbn [Py.bind].
  destruct (prepare_filename ydl opts i) as [q|e] eqn:Hq; [|done].
  cbn [Py.bind]. intros [= <- <-]. exists i.
  by rewrite sanitize_filename_eq.
Qed.

End download_lemmas.

(** ** A /download request from start to end *)

Section serve_lemmas.
Variables (ydl : YoutubeDL) (tmp url format_id : string).
Variable t : gmap string node.

Let opts := download_opts tmp format_id.
Local Abbreviation disk := (after_download ydl tmp url format_id t).
Local Abbreviation cleaned :=
  (filter (λ kv : string * node, ¬ in_tree tmp kv.1) disk).

Lemma run_cleanup (evs : list event) (ts : list task) :
  Framework.run_tasks [Task_rmtree tmp]
    {| w_fs := disk; w_events := evs; background_tasks := ts |}
  = {| w_fs := cleaned; w_events := evs ++ [Rmtree tmp];
       background_tasks := ts |}.
Proof.
  unfold Framework.run_tasks, do_rmtree. cbn [w_fs].
  rewrite (rmtree_dir _ _ (after_download_dir ydl tmp url format_id t)).
  reflexivity.
Qed.

Lemma serve_download_failure (b : bool) (e : exception) :
  try_block ydl opts url = Raise e →
  Framework.serve_download b ydl tmp url format_id t
  = {| w_fs := cleaned;
       w_events :=
         [Mkdtemp tmp; Extract url true; Rmtree tmp;
          Sent (SentError 500
                  ("Error de yt-dlp al descargar: " +:+ str_exc e))];
       background_tasks := [] |}.
Proof.
  intros He. unfold Framework.serve_download.
  rewrite download_video_run. fold opts. rewrite He. reflexivity.
Qed.

Lemma serve_download_sent (b : bool) (p n body : string) :
  try_block ydl opts url = Ret (p, n) →
  disk !! p = Some (File body) →
  Framework.serve_download b ydl tmp url format_id t
  = {| w_fs := cleaned;
       w_events :=
         [Mkdtemp tmp; Extract url true; AddTask (Task_rmtree tmp);
          Sent (SentFile "application/octet-stream" n body);
          Rmtree tmp];
       background_tasks := [Task_rmtree tmp] |}.
Proof.
  intros Hpn Hp. unfold Framework.serve_download.
  rewrite download_video_run. fold opts. rewrite Hpn.
  unfold Framework.respond, Framework.start, emit.
  cbn [w_fs w_events background_tasks path media_type filename fst snd
       app].
  rewrite Hp. apply run_cleanup.
Qed.

Lemma serve_download_not_sent (b : bool) (p n : string) :
  try_block ydl opts url = Ret (p, n) →
  (∀ body, disk !! p ≠ Some (File body)) →
  Framework.serve_download b ydl tmp url format_id t
  = if b
    then {| w_fs := cleaned;
            w_events :=
              [Mkdtemp tmp; Extract url true; AddTask (Task_rmtree tmp);
               SendFailed; Rmtree tmp];
            background_tasks := [Task_rmtree tmp] |}
    else {| w_fs := disk;
            w_events :=
              [Mkdtemp tmp; Extract url true; AddTask (Task_rmtree tmp);
               SendFailed];
            background_tasks := [Task_rmtree tmp] |}.
Proof.
  intros Hpn Hp. unfold Framework.serve_download.
  rewrite download_video_run. fold opts. rewrite Hpn.
  unfold Framework.respond, Framework.start, emit.
  cbn [w_fs w_events background_tasks path media_type filename fst snd
       app].
  destruct (disk !! p) as [[|body]|] eqn:Hlookup;
    try (by destruct (Hp body));
    (destruct b; [apply run_cleanup | reflexivity]).
Qed.

Lemma cleaned_gone (p : string) : in_tree tmp p = true → cleaned !! p = None.
Proof.
  intros Hp. by rewrite removed_tree_lookup, Hp.
Qed.

End serve_lemmas.

(** Running the deferred tasks only adds events. *)
Lemma run_tasks_extends (ts : list task) (w : world) :
  ∃ more, w_events (Framework.run_tasks ts w) = w_events w ++ more.
Proof.
  revert w. induction ts as [|[d] ts IH]; intros w; simpl.
  - exists []. by rewrite app_nil_r.
  - unfold do_rmtree. destruct (rmtree d (w_fs w)) as [t'|e].
    + destruct (IH (emit (Rmtree d) (set_fs t' w))) as [more ->].
      exists (Rmtree d :: more). cbn [emit set_fs w_events].
      by rewrite <- app_assoc.
    + exists []. by rewrite app_nil_r.
Qed.

(** A list splits in one way only around the first occurrence of an
    element. *)
Lemma split_at_first {A} (x : A) (l1 l2 k1 k2 : list A) :
  l1 ++ x :: l2 = k1 ++ x :: k2 → x ∉ l1 → x ∉ k1 → l1 = k1 ∧ l2 = k2.
Proof.
  revert k1. induction l1 as [|a l1 IH]; intros [|c k1] Heq Hl Hk;
    cbn [app] in Heq.
  - by injection Heq as ->.
  - injection Heq as -> _. destruct Hk. apply elem_of_cons. by left.
  - injection Heq as -> _. destruct Hl. apply elem_of_cons. by left.
  - injection Heq as -> Htail. destruct (IH k1 Htail) as [-> ->]; [| |done].
    + intros Hin. apply Hl, elem_of_cons. by right.
    + intros Hin. apply Hk, elem_of_cons. by right.
Qed.

(** Membership of an event in an explicit list of events. *)
Ltac event_not_in :=
  let H := fresh in
  intros H;
  repeat (apply elem_of_cons in H as [H|H]; [discriminate H|]);
  by apply elem_of_nil in H.

(** C5. When the extractor call of the /download handler raises, the
    handler removes the temporary directory itself, before anything is
    answered, and then raises [HTTPException] with status 500 whose
    detail ends with the extractor's error text; nothing of the directory
    is left and no deferred task was added. *)
Theorem download_failure_removes_dir (b : bool) (ydl : YoutubeDL)
    (tmp url format_id : string) (t : gmap string node) (e : exception) :
  extract_info ydl (download_opts tmp format_id) url true = Raise e →
  ∃ w,
    download_video ydl tmp url format_id (Framework.start t)
    = (Raise (HTTPException 500
                ("Error de yt-dlp al descargar: " +:+ str_exc e)), w) ∧
    w_events w = [Mkdtemp tmp; Extract url true; Rmtree tmp] ∧
    background_tasks w = [] ∧
    (∀ p, in_tree tmp p = true → w_fs w !! p = None) ∧
    w_fs w !! tmp = None ∧
    Framework.serve_download b ydl tmp url format_id t
    = emit (Sent (SentError 500
                    ("Error de yt-dlp al descargar: " +:+ str_exc e))) w.
Proof.
  intros He.
  assert (Htry : try_block ydl (download_opts tmp format_id) url = Raise e).
  { unfold try_block. by rewrite He. }
  eexists. split.
  { rewrite download_video_run, Htry. reflexivity. }
  cbn [w_fs w_events background_tasks Framework.start app].
  repeat split.
  - intros p Hp. by apply cleaned_gone.
  - apply cleaned_gone, in_tree_refl.
  - by rewrite (serve_download_failure _ _ _ _ _ _ e).
Qed.

Lemma download_failure_removes_dir_witness :
  ∃ w,
    download_video Examples.ydl_failing Examples.tmp Examples.url "22"
      (Framework.start ∅)
    = (Raise (HTTPException 500
                ("Error de yt-dlp al descargar: "
                 +:+ str_exc Examples.unsupported)), w) ∧
    w_events w
    = [Mkdtemp Examples.tmp; Extract Examples.url true;
       Rmtree Examples.tmp] ∧
    background_tasks w = [] ∧
    (∀ p, in_tree Examples.tmp p = true → w_fs w !! p = None) ∧
    w_fs w !! Examples.tmp = None ∧
    Framework.serve_download false Examples.ydl_failing Examples.tmp
      Examples.url "22" ∅
    = emit (Sent (SentError 500
                    ("Error de yt-dlp al descargar: "
                     +:+ str_exc Examples.unsupported))) w.
Proof.
  apply (download_failure_removes_dir false Examples.ydl_failing
           Examples.tmp Examples.url "22" ∅ Examples.unsupported).
  reflexivity.
Defined.

(** C6. The code breaks the claim at this request: the extractor reports
    success and names a file that is not on disk.  The handler has
    deferred the removal of the directory and returns a response for the
    path it has not checked; nothing can be sent, and with the deferred
    tasks left unrun after the failed send the directory is never
    removed: it is still on disk when the request is over.  Whatever the
    framework does with the deferred tasks then, the directory is not
    removed once after the body was sent or before an error response. *)
Theorem download_missing_file_leaks_dir :
  (download_video Examples.ydl_no_file Examples.tmp Examples.url "22"
     (Framework.start ∅)).1
  = Ret Examples.a_response ∧
  after_download Examples.ydl_no_file Examples.tmp Examples.url "22" ∅
    !! path Examples.a_response = None ∧
  w_events (Framework.serve_download false Examples.ydl_no_file
              Examples.tmp Examples.url "22" ∅)
  = [Mkdtemp Examples.tmp; Extract Examples.url true;
     AddTask (Task_rmtree Examples.tmp); SendFailed] ∧
  w_fs (Framework.serve_download false Examples.ydl_no_file Examples.tmp
          Examples.url "22" ∅) !! Examples.tmp
  = Some Dir ∧
  ∀ b : bool,
    ¬ removed_once Examples.tmp
        (Framework.serve_download b Examples.ydl_no_file Examples.tmp
           Examples.url "22" ∅).
Proof.
  assert (Hno : ∀ body,
             after_download Examples.ydl_no_file Examples.tmp Examples.url
               "22" ∅ !! Examples.produced ≠ Some (File body)).
  { intros body. vm_compute. discriminate. }
  pose proof (λ b, serve_download_not_sent Examples.ydl_no_file Examples.tmp
                     Examples.url "22" ∅ b Examples.produced _ eq_refl Hno)
    as Hrun.
  split; [by rewrite download_video_run|].
  split; [vm_compute; reflexivity|].
  split; [by rewrite (Hrun false)|].
  split.
  { rewrite (Hrun false). cbn [w_fs]. apply after_download_dir. }
  intros b [(before & after & Hev & Hbefore & Hafter & Hwhen) Hgone].
  rewrite (Hrun b) in Hev, Hgone.
  destruct b; cbn [w_events w_fs] in Hev, Hgone.
  - assert (before = [Mkdtemp Examples.tmp; Extract Examples.url true;
                      AddTask (Task_rmtree Examples.tmp); SendFailed]
            ∧ after = []) as [-> ->].
    { symmetry in Hev.
      apply (split_at_first (Rmtree Examples.tmp) before after
               [Mkdtemp Examples.tmp; Extract Examples.url true;
                AddTask (Task_rmtree Examples.tmp); SendFailed] []
               Hev Hbefore).
      event_not_in. }
    destruct Hwhen as [(ct & name & body & Hin) | [_ (s & d & Hd)]];
      [|discriminate Hd].
    revert Hin. event_not_in.
  - rewrite after_download_dir in Hgone. discriminate Hgone.
Qed.



(** C9. Whenever a /download request sends a file, the content type is
    application/octet-stream, the body is the content of the file the
    extractor named, and the suggested name is the sanitized base name of
    that file's path, so it has none of the nine characters. *)
Theorem download_sends_sanitized_name (b : bool) (ydl : YoutubeDL)
    (tmp url format_id : string) (t : gmap string node)
    (ct name body : string) :
  Sent (SentFile ct name body)
    ∈ w_events (Framework.serve_download b ydl tmp url format_id t) →
  ct = "application/octet-stream" ∧
  ∃ i p,
    extract_info ydl (download_opts tmp format_id) url true = Ret i ∧
    prepare_filename ydl (download_opts tmp format_id) i = Ret p ∧
    after_download ydl tmp url format_id t !! p = Some (File body) ∧
    sanitize_filename (basename p) = Some name ∧
    ∀ c, c ∈ forbidden_chars → ¬ In c (list_ascii_of_string name).
Proof.
  destruct (try_block ydl (download_opts tmp format_id) url)
    as [[p n]|e] eqn:Htry.
  - destruct (try_block_Ret _ _ _ _ _ _ Htry) as (i & Hi & Hp & Hn).
    destruct (after_download ydl tmp url format_id t !! p)
      as [[|body']|] eqn:Hdisk.
    2:{ rewrite (serve_download_sent _ _ _ _ _ b p n body') by done.
        cbn [w_events]. rewrite !elem_of_cons, elem_of_nil.
        intros [?|[?|[?|[Hsent|[?|[]]]]]]; try discriminate.
        injection Hsent as -> -> ->. split; [done|].
        exists i, p. repeat split; try done.
        intros c Hc Hin. rewrite sanitize_filename_eq in Hn.
        injection Hn as <-. apply without_forbidden_clean in Hin.
        unfold is_forbidden in Hin.
        by apply bool_decide_eq_false in Hin. }
    all: rewrite (serve_download_not_sent _ _ _ _ _ b p n)
      by (done || (intros ?; by rewrite Hdisk));
      destruct b; cbn [w_events]; event_not_in.
  - rewrite (serve_download_failure _ _ _ _ _ b e) by done.
    cbn [w_events]. event_not_in.
Qed.

Lemma download_sends_sanitized_name_witness :
  "application/octet-stream" = "application/octet-stream" ∧
  ∃ i p,
    extract_info (Examples.ydl_reporting [Examples.fmt_22])
      (download_opts Examples.tmp "22") Examples.url true = Ret i ∧
    prepare_filename (Examples.ydl_reporting [Examples.fmt_22])
      (download_opts Examples.tmp "22") i = Ret p ∧
    after_download (Examples.ydl_reporting [Examples.fmt_22]) Examples.tmp
      Examples.url "22" ∅ !! p = Some (File "the bytes") ∧
    sanitize_filename (basename p) = Some "MyVideo.mp4" ∧
    ∀ c, c ∈ forbidden_chars → ¬ In c (list_ascii_of_string "MyVideo.mp4").
Proof.
  apply (download_sends_sanitized_name false
           (Examples.ydl_reporting [Examples.fmt_22]) Examples.tmp
           Examples.url "22" ∅).
  apply list_elem_of_In. vm_compute. do 3 right. left. reflexivity.
Defined.

(** C10. When the /download handler returns its response, the
    response's path is the very path the extractor computed, only the
    suggested name is sanitized (it is the sanitized base name of that
    path), the file system is as the extractor left it, with the
    temporary directory still there, and the file that is sent is read
    from the response's path. *)
Theorem download_sanitizes_only_the_name (ydl : YoutubeDL)
    (tmp url format_id : string) (w0 w : world) (r : FileResponse) :
  download_video ydl tmp url format_id w0 = (Ret r, w) →
  (∃ i, extract_info ydl (download_opts tmp format_id) url true = Ret i ∧
        prepare_filename ydl (download_opts tmp format_id) i
        = Ret (path r)) ∧
  sanitize_filename (basename (path r)) = Some (filename r) ∧
  w_fs w = after_download ydl tmp url format_id (w_fs w0) ∧
  w_fs w !! tmp = Some Dir ∧
  background_tasks w = background_tasks w0 ++ [Task_rmtree tmp] ∧
  ∀ b body,
    w_fs w !! path r = Some (File body) →
    Sent (SentFile (media_type r) (filename r) body)
      ∈ w_events (Framework.respond b (Ret r, w)).
Proof.
  rewrite download_video_run.
  destruct (try_block ydl (download_opts tmp format_id) url)
    as [[p n]|e] eqn:Htry; [|done].
  intros [= <- <-]. cbn [path filename media_type w_fs background_tasks fst snd].
  destruct (try_block_Ret _ _ _ _ _ _ Htry) as (i & Hi & Hp & Hn).
  split; [by exists i|]. split; [done|]. split; [done|].
  split; [apply after_download_dir|]. split; [done|].
  intros b body Hbody. unfold Framework.respond.
  cbn [path filename media_type w_fs background_tasks w_events].
  rewrite Hbody.
  destruct (run_tasks_extends (background_tasks w0 ++ [Task_rmtree tmp])
              (emit (Sent (SentFile "application/octet-stream" n body))
                 {| w_fs := after_download ydl tmp url format_id (w_fs w0);
                    w_events := w_events w0
                                ++ [Mkdtemp tmp; Extract url true;
                                    AddTask (Task_rmtree tmp)];
                    background_tasks :=
                      background_tasks w0 ++ [Task_rmtree tmp] |}))
    as [more ->].
  cbn [w_events emit]. rewrite !elem_of_app, !elem_of_cons. tauto.
Qed.

Lemma download_sanitizes_only_the_name_witness :
  (∃ i, extract_info (Examples.ydl_reporting [Examples.fmt_22])
          (download_opts Examples.tmp "22") Examples.url true = Ret i ∧
        prepare_filename (Examples.ydl_reporting [Examples.fmt_22])
          (download_opts Examples.tmp "22") i
        = Ret (path Examples.a_response)) ∧
  sanitize_filename (basename (path Examples.a_response))
  = Some (filename Examples.a_response) ∧
  w_fs Examples.world_at_return
  = after_download (Examples.ydl_reporting [Examples.fmt_22]) Examples.tmp
      Examples.url "22" (w_fs (Framework.start ∅)) ∧
  w_fs Examples.world_at_return !! Examples.tmp = Some Dir ∧
  background_tasks Examples.world_at_return
  = background_tasks (Framework.start ∅) ++ [Task_rmtree Examples.tmp] ∧
  ∀ b body,
    w_fs Examples.world_at_return !! path Examples.a_response
    = Some (File body) →
    Sent (SentFile (media_type Examples.a_response)
            (filename Examples.a_response) body)
      ∈ w_events (Framework.respond b
                    (Ret Examples.a_response, Examples.world_at_return)).
Proof.
  apply (download_sanitizes_only_the_name
           (Examples.ydl_reporting [Examples.fmt_22]) Examples.tmp
           Examples.url "22" (Framework.start ∅)).
  vm_compute. reflexivity.
Defined.


(* ===================================================================== *)
(** * Further properties of the code *)
(* ===================================================================== *)

(** ** The sanitizer *)

Section sanitizer_more.

Lemma is_forbidden_false (c : ascii) :
  is_forbidden c = false ↔ c ∉ forbidden_chars.
Proof. unfold is_forbidden. apply bool_decide_eq_false. Qed.

Lemma is_forbidden_true (c : ascii) :
  is_forbidden c = true ↔ c ∈ forbidden_chars.
Proof. unfold is_forbidden. apply bool_decide_eq_true. Qed.

Lemma without_forbidden_cons (c : ascii) (s : string) :
  without_forbidden (String c s)
  = if is_forbidden c then without_forbidden s
    else String c (without_forbidden s).
Proof. unfold without_forbidden. simpl. by destruct (is_forbidden c). Qed.

Lemma without_forbidden_app (a b : string) :
  without_forbidden (a +:+ b) = without_forbidden a +:+ without_forbidden b.
Proof.
  induction a as [|c a IH]; [done|].
  change (String c a +:+ b) with (String c (a +:+ b)).
  rewrite !without_forbidden_cons, IH. by destruct (is_forbidden c).
Qed.

Lemma without_forbidden_id (s : string) :
  without_forbidden s = s
  ↔ ∀ c, In c (list_ascii_of_string s) → is_forbidden c = false.
Proof.
  split.
  - intros Heq c Hc. rewrite <- Heq in Hc. by apply without_forbidden_clean in Hc.
  - induction s as [|c s IH]; intros Hall; [done|].
    rewrite without_forbidden_cons, (Hall c) by (by left).
    f_equal. apply IH. intros x Hx. apply Hall. by right.
Qed.

Lemma without_forbidden_length (s : string) :
  (String.length (without_forbidden s)
   + length (List.filter is_forbidden (list_ascii_of_string s))
   = String.length s)%nat.
Proof.
  induction s as [|c s IH]; [done|].
  rewrite without_forbidden_cons. cbn [list_ascii_of_string List.filter].
  destruct (is_forbidden c); cbn [String.length length]; lia.
Qed.

Lemma without_forbidden_empty (s : string) :
  without_forbidden s = ""
  ↔ ∀ c, In c (list_ascii_of_string s) → is_forbidden c = true.
Proof.
  induction s as [|c s IH].
  - split; [intros _ c [] | done].
  - rewrite without_forbidden_cons. destruct (is_forbidden c) eqn:Hc.
    + rewrite IH. split.
      * intros Hall x [<-|Hx]; [done | by apply Hall].
      * intros Hall x Hx. apply Hall. by right.
    + split; [done|]. intros Hall.
      specialize (Hall c (or_introl eq_refl)). congruence.
Qed.

End sanitizer_more.

(** X1. The sanitizer works character by character: sanitizing a
    concatenation gives the concatenation of the sanitized parts. *)
Theorem sanitize_filename_app (a b : string) :
  sanitize_filename (a +:+ b)
  = sa ← sanitize_filename a; sb ← sanitize_filename b; Some (sa +:+ sb).
Proof.
  rewrite !sanitize_filename_eq. simpl. by rewrite without_forbidden_app.
Qed.

(** X2. The sanitizer returns its input unchanged exactly when the input
    has none of the nine characters. *)
Theorem sanitize_filename_fixed_iff_clean (s : string) :
  sanitize_filename s = Some s
  ↔ ∀ c, In c (list_ascii_of_string s) → c ∉ forbidden_chars.
Proof.
  rewrite sanitize_filename_eq. split.
  - intros [= Heq] c Hc. apply is_forbidden_false.
    by apply (without_forbidden_id s).
  - intros Hall. f_equal. apply without_forbidden_id.
    intros c Hc. by apply is_forbidden_false, Hall.
Qed.

(** X3. The result is shorter than the input by exactly the number of
    occurrences of the nine characters, so it is never longer. *)
Theorem sanitize_filename_length (s : string) :
  ∃ out,
    sanitize_filename s = Some out ∧
    (String.length out
     + length (List.filter (λ c, bool_decide (c ∈ forbidden_chars))
                 (list_ascii_of_string s))
     = String.length s)%nat ∧
    (String.length out ≤ String.length s)%nat.
Proof.
  exists (without_forbidden s). split; [apply sanitize_filename_eq|].
  pose proof (without_forbidden_length s) as Hlen.
  unfold is_forbidden in Hlen. split; [exact Hlen | lia].
Qed.

(** X4. The sanitizer returns the empty string exactly when every
    character of the input is one of the nine: a title or file name made
    of such characters only is answered as an empty name. *)
Theorem sanitize_filename_empty_iff (s : string) :
  sanitize_filename s = Some ""
  ↔ ∀ c, In c (list_ascii_of_string s) → c ∈ forbidden_chars.
Proof.
  rewrite sanitize_filename_eq. split.
  - intros [= Heq] c Hc. apply is_forbidden_true.
    by apply (without_forbidden_empty s).
  - intros Hall. f_equal. apply without_forbidden_empty.
    intros c Hc. by apply is_forbidden_true, Hall.
Qed.

(** ** The /info handler *)

Section info_more.
Context `{Pydantic}.

Lemma field_Exc {A} (name : string) (o : option A) (e : exception) :
  field name o = Raise e → ∃ cls text, e = Exc cls text.
Proof. destruct o; [done|]. intros [= <-]. by eexists _, _. Qed.

Lemma getitem_Exc (f : dict) (k : string) (e : exception) :
  getitem f k = Raise e → ∃ cls text, e = Exc cls text.
Proof.
  unfold getitem. destruct (f !! k); [done|]. intros [= <-].
  by eexists _, _.
Qed.

(** Building an entry raises [KeyError] or [ValidationError], never an
    [HTTPException]. *)
Lemma make_video_format_Exc (f : dict) (e : exception) :
  make_video_format f = Raise e → ∃ cls text, e = Exc cls text.
Proof.
  unfold make_video_format.
  destruct (getitem f "format_id") as [a|e1] eqn:H1; cbn [Py.bind];
    [|intros [= <-]; by eapply getitem_Exc].
  destruct (getitem f "ext") as [b|e2] eqn:H2; cbn [Py.bind];
    [|intros [= <-]; by eapply getitem_Exc].
  destruct (field "format_id" (validate_str a)) as [?|e3] eqn:H3;
    cbn [Py.bind]; [|intros [= <-]; by eapply field_Exc].
  destruct (field "quality" (validate_str (VStr (quality_label f))))
    as [?|e4] eqn:H4; cbn [Py.bind]; [|intros [= <-]; by eapply field_Exc].
  destruct (field "ext" (validate_str b)) as [?|e5] eqn:H5;
    cbn [Py.bind]; [|intros [= <-]; by eapply field_Exc].
  destruct (field "filesize" (validate_optional_int (get f "filesize")))
    as [?|e6] eqn:H6; cbn [Py.bind]; [done|].
  intros [= <-]. by eapply field_Exc.
Qed.

Lemma make_video_format_missing_key (f : dict) :
  f !! "format_id" = None ∨ f !! "ext" = None →
  ∃ e, make_video_format f = Raise e.
Proof.
  intros Hmiss. unfold make_video_format, getitem.
  destruct (f !! "format_id") as [a|]; cbn [Py.bind]; [|by eexists].
  destruct Hmiss as [|Hext]; [done|]. rewrite Hext. by eexists.
Qed.

Lemma make_video_format_well_formed (f : dict) :
  well_formed f → make_video_format f = Ret (listed f).
Proof.
  intros ([fid Hid] & [e He] & Hsize).
  unfold make_video_format, listed, getitem, get in *.
  rewrite Hid, He. cbn [Py.bind from_option id str].
  rewrite !validate_str_str. cbn [Py.bind field].
  destruct Hsize as [-> | [n ->]].
  - by rewrite validate_optional_int_None.
  - by rewrite validate_optional_int_int.
Qed.

Lemma collect_formats_well_formed (fs : list dict)
    (acc : list VideoFormat) :
  Forall well_formed (List.filter has_video_and_audio fs) →
  collect_formats fs acc
  = Ret (acc ++ map listed (List.filter has_video_and_audio fs)).
Proof.
  revert acc. induction fs as [|f fs IH]; intros acc; simpl.
  - by rewrite app_nil_r.
  - destruct (has_video_and_audio f); [|apply IH].
    intros [Hf Hrest]%Forall_cons.
    rewrite (make_video_format_well_formed f Hf). cbn [Py.bind].
    rewrite IH by done. by rewrite <- app_assoc.
Qed.

(** When the loop raises, it is building the entry of a record that
    passes the test that raised. *)
Lemma collect_formats_Raise (fs : list dict) (acc : list VideoFormat)
    (e : exception) :
  collect_formats fs acc = Raise e →
  ∃ f, In f (List.filter has_video_and_audio fs)
       ∧ make_video_format f = Raise e.
Proof.
  revert acc. induction fs as [|f fs IH]; intros acc; simpl; [done|].
  destruct (has_video_and_audio f).
  - destruct (make_video_format f) as [vf|e'] eqn:Hf; cbn [Py.bind].
    + intros (g & Hg & He)%IH. exists g. split; [by right | done].
    + intros [= <-]. exists f. split; [by left | done].
  - apply IH.
Qed.

Lemma collect_formats_filter (fs : list dict) (acc : list VideoFormat) :
  collect_formats (List.filter has_video_and_audio fs) acc
  = collect_formats fs acc.
Proof.
  revert acc. induction fs as [|f fs IH]; intros acc; simpl; [done|].
  destruct (has_video_and_audio f) eqn:Hf; simpl; [|apply IH].
  rewrite Hf. destruct (make_video_format f); simpl; [apply IH | done].
Qed.

(** A record that passes the test and whose entry cannot be built makes
    the loop raise. *)
Lemma collect_formats_bad_record (fs : list dict) (f : dict) (e : exception) :
  In f fs → has_video_and_audio f = true → make_video_format f = Raise e →
  ∃ cls text, collect_formats fs [] = Raise (Exc cls text).
Proof.
  intros Hin Hkeep Hbad.
  destruct (collect_formats fs []) as [out|e'] eqn:Hloop.
  - apply collect_formats_Ret in Hloop as (vs & _ & Hall).
    assert (Hf : In f (List.filter has_video_and_audio fs))
      by (by apply filter_In).
    apply list_elem_of_In, list_elem_of_lookup in Hf as [k Hk].
    destruct (Forall2_lookup_l _ _ _ k f Hall Hk) as (vf & _ & Hvf).
    congruence.
  - apply collect_formats_Raise in Hloop as (g & _ & Hg).
    destruct (make_video_format_Exc g e' Hg) as (cls & text & ->).
    by exists cls, text.
Qed.

Lemma sanitized_title_listed (i : info) :
  info_title i = None ∨ (∃ t, info_title i = Some (VStr t)) →
  sanitized_title i = Ret (listed_title i).
Proof.
  unfold sanitized_title, listed_title.
  intros [-> | [t ->]]; cbn [from_option id];
    by rewrite sanitize_filename_eq.
Qed.

Lemma sanitized_title_Ret (i : info) (t : string) :
  sanitized_title i = Ret t →
  (info_title i = None ∨ ∃ t0, info_title i = Some (VStr t0))
  ∧ t = listed_title i.
Proof.
  intros Ht.
  assert (Hshape : info_title i = None ∨ ∃ t0, info_title i = Some (VStr t0)).
  { unfold sanitized_title in Ht.
    destruct (info_title i) as [[| | |t0]|]; cbn [from_option id] in Ht;
      try done; [right; by exists t0 | by left]. }
  split; [done|]. rewrite (sanitized_title_listed i Hshape) in Ht.
  congruence.
Qed.

Lemma sanitized_title_not_a_string (i : info) (v : value) :
  info_title i = Some v → (∀ s, v ≠ VStr s) →
  ∃ cls text, sanitized_title i = Raise (Exc cls text).
Proof.
  intros Hv Hns. unfold sanitized_title. rewrite Hv. cbn [from_option id].
  destruct v as [| | |s]; try (by eexists _, _). by destruct (Hns s).
Qed.

Lemma listed_title_clean (i : info) (c : ascii) :
  In c (list_ascii_of_string (listed_title i)) → c ∉ forbidden_chars.
Proof.
  unfold listed_title. intros Hc. apply is_forbidden_false.
  destruct (info_title i) as [[| | |t]|];
    try (by apply (without_forbidden_clean t));
    (apply (without_forbidden_clean "video_sin_titulo"); exact Hc).
Qed.

End info_more.

Section info_more_handler.
Context `{Pydantic}.

Lemma collect_formats_Ret_nil (fs : list dict) :
  collect_formats fs [] = Ret [] → List.filter has_video_and_audio fs = [].
Proof.
  intros (vs & Hvs & Hall)%collect_formats_Ret. simpl in Hvs. subst vs.
  by inversion Hall.
Qed.

(** The handler's ways out, by what the extractor and the loop give. *)
Lemma get_video_info_cases (ydl : YoutubeDL) (url : string) :
  match extract_info ydl info_opts url false with
  | Raise e =>
      get_video_info ydl url
      = Raise (HTTPException 400
                 ("Error de yt-dlp al obtener info: " +:+ str_exc e))
  | Ret i =>
      match collect_formats (default [] (info_formats i)) [] with
      | Raise e => get_video_info ydl url = Raise e
      | Ret [] =>
          get_video_info ydl url = Raise (HTTPException 404 no_formats_detail)
      | Ret (vf :: vfs) =>
          match sanitized_title i with
          | Raise e => get_video_info ydl url = Raise e
          | Ret t =>
              get_video_info ydl url
              = Ret {| title := t; formats := vf :: vfs |}
          end
      end
  end.
Proof.
  unfold get_video_info.
  destruct (extract_info ydl info_opts url false) as [i|e]; [|done].
  destruct (collect_formats _ _) as [[|vf vfs]|e]; cbn [Py.bind]; try done.
  destruct (sanitized_title i) as [t|e]; cbn [Py.bind]; [|done].
  by rewrite validate_str_str.
Qed.

End info_more_handler.

(** The test of line 67 on the example records. *)
Lemma passes_fmt_22 : has_video_and_audio Examples.fmt_22 = true.
Proof. vm_compute. reflexivity. Qed.

Lemma passes_fmt_sized : has_video_and_audio MoreExamples.fmt_sized = true.
Proof. vm_compute. reflexivity. Qed.

Lemma passes_fmt_no_id : has_video_and_audio MoreExamples.fmt_no_id = true.
Proof. vm_compute. reflexivity. Qed.

Lemma passes_fmt_audio_only :
  has_video_and_audio Examples.fmt_audio_only = false.
Proof. vm_compute. reflexivity. Qed.

(** X5. When the extractor succeeds, every record that passes the
    video-and-audio test is well formed (string id, string extension, size
    missing, [None] or an integer), at least one passes, and the title is
    a string or missing, the handler answers 200 with exactly those
    records' entries, in the extractor's order, id, extension and size
    taken over as they are, and with the sanitized title, or
    [video_sin_titulo] when the title is missing. *)
Theorem info_lists_well_formed_records `{Pydantic}
    (ydl : YoutubeDL) (url : string) (i : info) :
  extract_info ydl info_opts url false = Ret i →
  Forall well_formed
    (List.filter has_video_and_audio (default [] (info_formats i))) →
  List.filter has_video_and_audio (default [] (info_formats i)) ≠ [] →
  info_title i = None ∨ (∃ t, info_title i = Some (VStr t)) →
  get_video_info ydl url
  = Ret {| title := listed_title i;
           formats :=
             map listed
               (List.filter has_video_and_audio
                  (default [] (info_formats i))) |}.
Proof.
  intros Hi Hwf Hne Htitle.
  pose proof (get_video_info_cases ydl url) as Hcases.
  rewrite Hi, (collect_formats_well_formed _ [] Hwf) in Hcases.
  cbn [app] in Hcases.
  destruct (List.filter has_video_and_audio (default [] (info_formats i)))
    as [|f fs]; [done|].
  cbn [map] in Hcases |- *.
  by rewrite (sanitized_title_listed i Htitle) in Hcases.
Qed.

Lemma info_lists_well_formed_records_witness :
  get_video_info
    (MoreExamples.ydl_titled None
       [Examples.fmt_audio_only; MoreExamples.fmt_sized; Examples.fmt_22])
    Examples.url
  = Ret {| title := "video_sin_titulo";
           formats :=
             map listed [MoreExamples.fmt_sized; Examples.fmt_22] |}
  ∧ map listed [MoreExamples.fmt_sized; Examples.fmt_22]
    = [{| format_id := "22"; quality := "hd720"; ext := "mp4";
          filesize := Some 1048576 |};
       {| format_id := "22"; quality := "720p"; ext := "mp4";
          filesize := None |}].
Proof.
  split; [|vm_compute; reflexivity].
  assert (Hkept :
    List.filter has_video_and_audio
      [Examples.fmt_audio_only; MoreExamples.fmt_sized; Examples.fmt_22]
    = [MoreExamples.fmt_sized; Examples.fmt_22]).
  { cbn [List.filter].
    by rewrite passes_fmt_audio_only, passes_fmt_sized, passes_fmt_22. }
  rewrite <- Hkept.
  apply (info_lists_well_formed_records
           (MoreExamples.ydl_titled None
              [Examples.fmt_audio_only; MoreExamples.fmt_sized;
               Examples.fmt_22])
           Examples.url
           {| info_title := None;
              info_formats :=
                Some [Examples.fmt_audio_only; MoreExamples.fmt_sized;
                      Examples.fmt_22] |}).
  - reflexivity.
  - cbn [info_formats from_option id]. rewrite Hkept.
    constructor; [|constructor; [|constructor]].
    + split; [|split];
        [exists "22"; vm_compute; reflexivity
        |exists "mp4"; vm_compute; reflexivity|].
      right. exists 1048576. vm_compute. reflexivity.
    + split; [|split];
        [exists "22"; vm_compute; reflexivity
        |exists "mp4"; vm_compute; reflexivity|].
      left. vm_compute. reflexivity.
  - cbn [info_formats from_option id]. rewrite Hkept. discriminate.
  - by left.
Defined.

(** X6. The title of every successful /info response is the sanitized
    title the extractor reported, a string, or [video_sin_titulo] when the
    extractor reported no title; in both cases it has none of the nine
    characters. *)
Theorem info_title_sanitized_or_default `{Pydantic}
    (ydl : YoutubeDL) (url : string) (resp : VideoInfoResponse) :
  get_video_info ydl url = Ret resp →
  ∃ i,
    extract_info ydl info_opts url false = Ret i ∧
    ((info_title i = None ∧ title resp = "video_sin_titulo")
     ∨ (∃ t, info_title i = Some (VStr t)
             ∧ sanitize_filename t = Some (title resp))) ∧
    ∀ c, In c (list_ascii_of_string (title resp)) → c ∉ forbidden_chars.
Proof.
  intros (i & Hi & _ & _ & Ht)%get_video_info_Ret.
  apply sanitized_title_Ret in Ht as [Hshape Ht]. exists i.
  split; [done|]. split.
  - rewrite Ht. unfold listed_title.
    destruct Hshape as [Hnone | [t Hsome]].
    + left. by rewrite Hnone.
    + right. exists t. by rewrite Hsome, sanitize_filename_eq.
  - rewrite Ht. apply listed_title_clean.
Qed.

Lemma info_title_sanitized_or_default_witness :
  ∃ i,
    extract_info (MoreExamples.ydl_titled None [Examples.fmt_22])
      info_opts Examples.url false = Ret i ∧
    ((info_title i = None ∧ "video_sin_titulo" = "video_sin_titulo")
     ∨ (∃ t, info_title i = Some (VStr t)
             ∧ sanitize_filename t = Some "video_sin_titulo")) ∧
    ∀ c, In c (list_ascii_of_string "video_sin_titulo") →
         c ∉ forbidden_chars.
Proof.
  apply (info_title_sanitized_or_default
           (MoreExamples.ydl_titled None [Examples.fmt_22]) Examples.url
           {| title := "video_sin_titulo";
              formats := [{| format_id := "22"; quality := "720p";
                             ext := "mp4"; filesize := None |}] |}).
  vm_compute. reflexivity.
Defined.

(** X7. When at least one record passes the test and the extractor's
    title entry is there but is not a string ([None], for one), the
    handler answers neither 200 nor an [HTTPException]: an exception of
    another class escapes it. *)
Theorem info_title_not_a_string_escapes `{Pydantic}
    (ydl : YoutubeDL) (url : string) (i : info) (v : value) :
  extract_info ydl info_opts url false = Ret i →
  info_title i = Some v →
  (∀ s, v ≠ VStr s) →
  List.filter has_video_and_audio (default [] (info_formats i)) ≠ [] →
  ∃ cls text, get_video_info ydl url = Raise (Exc cls text).
Proof.
  intros Hi Hv Hns Hne.
  pose proof (get_video_info_cases ydl url) as Hcases. rewrite Hi in Hcases.
  destruct (collect_formats (default [] (info_formats i)) [])
    as [[|vf vfs]|e] eqn:Hloop.
  - by apply collect_formats_Ret_nil in Hloop.
  - destruct (sanitized_title_not_a_string i v Hv Hns) as (cls & text & Ht).
    rewrite Ht in Hcases. by exists cls, text.
  - apply collect_formats_Raise in Hloop as (f & _ & Hf).
    destruct (make_video_format_Exc f e Hf) as (cls & text & ->).
    by exists cls, text.
Qed.

Lemma info_title_not_a_string_escapes_witness :
  ∃ cls text,
    get_video_info (MoreExamples.ydl_titled (Some VNone) [Examples.fmt_22])
      Examples.url
    = Raise (Exc cls text).
Proof.
  apply (info_title_not_a_string_escapes
           (MoreExamples.ydl_titled (Some VNone) [Examples.fmt_22])
           Examples.url
           {| info_title := Some VNone;
              info_formats := Some [Examples.fmt_22] |} VNone).
  - reflexivity.
  - reflexivity.
  - discriminate.
  - cbn [info_formats from_option id List.filter].
    rewrite passes_fmt_22. discriminate.
Defined.

(** X8. One record that passes the test and lacks the [format_id] or the
    [ext] key fails the whole request, whatever the other records are:
    the handler answers neither 200 nor an [HTTPException], an exception
    of another class ([KeyError], or what an earlier record raised)
    escapes it. *)
Theorem info_missing_key_escapes `{Pydantic}
    (ydl : YoutubeDL) (url : string) (i : info) (f : dict) :
  extract_info ydl info_opts url false = Ret i →
  In f (default [] (info_formats i)) →
  has_video_and_audio f = true →
  f !! "format_id" = None ∨ f !! "ext" = None →
  ∃ cls text, get_video_info ydl url = Raise (Exc cls text).
Proof.
  intros Hi Hin Hkeep Hmiss.
  destruct (make_video_format_missing_key f Hmiss) as [e Hbad].
  destruct (collect_formats_bad_record _ f e Hin Hkeep Hbad)
    as (cls & text & Hloop).
  pose proof (get_video_info_cases ydl url) as Hcases.
  rewrite Hi, Hloop in Hcases. by exists cls, text.
Qed.

Lemma info_missing_key_escapes_witness :
  ∃ cls text,
    get_video_info
      (MoreExamples.ydl_titled None
         [Examples.fmt_22; MoreExamples.fmt_no_id])
      Examples.url
    = Raise (Exc cls text).
Proof.
  apply (info_missing_key_escapes
           (MoreExamples.ydl_titled None
              [Examples.fmt_22; MoreExamples.fmt_no_id])
           Examples.url
           {| info_title := None;
              info_formats :=
                Some [Examples.fmt_22; MoreExamples.fmt_no_id] |}
           MoreExamples.fmt_no_id).
  - reflexivity.
  - right. left. reflexivity.
  - apply passes_fmt_no_id.
  - left. vm_compute. reflexivity.
Defined.

(** X9. The /info handler raises [HTTPException] in two cases only: with
    status 400, exactly when the extractor call raised, and with status
    404 and the fixed message, exactly when the extractor returned and no
    record passed the test. *)
Theorem info_http_errors `{Pydantic}
    (ydl : YoutubeDL) (url : string) (status : Z) (detail : string) :
  get_video_info ydl url = Raise (HTTPException status detail) →
  (status = 400 ∧
   ∃ e, extract_info ydl info_opts url false = Raise e ∧
        detail = "Error de yt-dlp al obtener info: " +:+ str_exc e)
  ∨ (status = 404 ∧ detail = no_formats_detail ∧
     ∃ i, extract_info ydl info_opts url false = Ret i ∧
          List.filter has_video_and_audio (default [] (info_formats i)) = []).
Proof.
  intros Hraise.
  pose proof (get_video_info_cases ydl url) as Hcases.
  destruct (extract_info ydl info_opts url false) as [i|e] eqn:Hi.
  - destruct (collect_formats (default [] (info_formats i)) [])
      as [[|vf vfs]|e] eqn:Hloop.
    + rewrite Hcases in Hraise. injection Hraise as <- <-.
      right. repeat split. exists i.
      split; [done | by apply collect_formats_Ret_nil].
    + destruct (sanitized_title i) as [t|e] eqn:Ht;
        rewrite Hcases in Hraise; [done|].
      injection Hraise as ->. unfold sanitized_title in Ht.
      destruct (default (VStr "video_sin_titulo") (info_title i))
        as [| | |t]; discriminate Ht.
    + rewrite Hcases in Hraise. injection Hraise as ->.
      apply collect_formats_Raise in Hloop as (f & _ & Hf).
      by destruct (make_video_format_Exc f _ Hf) as (cls & text & ?).
  - rewrite Hcases in Hraise. injection Hraise as <- <-.
    left. split; [done|]. by exists e.
Qed.

Lemma info_http_errors_witness :
  (404 = 400 ∧
   ∃ e, extract_info
          (Examples.ydl_reporting [Examples.fmt_audio_only])
          info_opts Examples.url false = Raise e ∧
        no_formats_detail
        = "Error de yt-dlp al obtener info: " +:+ str_exc e)
  ∨ (404 = 404 ∧ no_formats_detail = no_formats_detail ∧
     ∃ i, extract_info
            (Examples.ydl_reporting [Examples.fmt_audio_only])
            info_opts Examples.url false = Ret i ∧
          List.filter has_video_and_audio (default [] (info_formats i)) = []).
Proof.
  apply (info_http_errors
           (Examples.ydl_reporting [Examples.fmt_audio_only]) Examples.url).
  unfold get_video_info.
  cbn [extract_info Examples.ydl_reporting Examples.an_info info_formats
       from_option id collect_formats].
  by rewrite passes_fmt_audio_only.
Defined.

(** X10. Records that do not pass the test have no influence at all:
    the handler gives the same result, response or exception, when the
    extractor reports only the records that pass. *)
Theorem info_ignores_other_records `{Pydantic}
    (ydl ydl' : YoutubeDL) (url : string) (i : info) :
  extract_info ydl info_opts url false = Ret i →
  extract_info ydl' info_opts url false
  = Ret (with_formats i
           (List.filter has_video_and_audio (default [] (info_formats i)))) →
  get_video_info ydl' url = get_video_info ydl url.
Proof.
  intros Hi Hi'. unfold get_video_info. rewrite Hi, Hi'.
  cbn [with_formats info_formats from_option id].
  by rewrite collect_formats_filter.
Qed.

Lemma info_ignores_other_records_witness :
  get_video_info (MoreExamples.ydl_titled None [Examples.fmt_22])
    Examples.url
  = get_video_info
      (MoreExamples.ydl_titled None
         [Examples.fmt_audio_only; Examples.fmt_22])
      Examples.url.
Proof.
  apply (info_ignores_other_records
           (MoreExamples.ydl_titled None
              [Examples.fmt_audio_only; Examples.fmt_22])
           (MoreExamples.ydl_titled None [Examples.fmt_22])
           Examples.url
           {| info_title := None;
              info_formats :=
                Some [Examples.fmt_audio_only; Examples.fmt_22] |}).
  - reflexivity.
  - cbn [extract_info MoreExamples.ydl_titled with_formats info_title
         info_formats from_option id List.filter].
    by rewrite passes_fmt_audio_only, passes_fmt_22.
Defined.

(** ** Paths and the file system *)

Section path_lemmas.

Lemma append_assoc (a b c : string) : (a +:+ b) +:+ c = a +:+ (b +:+ c).
Proof.
  induction a as [|x a IH]; [reflexivity|].
  change (String x ((a +:+ b) +:+ c) = String x (a +:+ (b +:+ c))).
  by rewrite IH.
Qed.

Lemma append_empty_r (a : string) : a +:+ "" = a.
Proof.
  induction a as [|x a IH]; [reflexivity|].
  change (String x (a +:+ "") = String x a). by rewrite IH.
Qed.

Lemma prefix_append (a b : string) : String.prefix a (a +:+ b) = true.
Proof.
  induction a as [|x a IH]; [by destruct b|].
  change (String.prefix (String x a) (String x (a +:+ b)) = true).
  cbn [String.prefix]. by destruct (ascii_dec x x).
Qed.

Lemma in_tree_below (d n : string) : in_tree d (d +:+ "/" +:+ n) = true.
Proof.
  unfold in_tree. rewrite <- (append_assoc d "/" n), prefix_append.
  apply orb_true_r.
Qed.

Lemma after_last_sep_slash_free (n cur : string) :
  slash_free n → after_last_sep n cur = cur +:+ n.
Proof.
  unfold slash_free. revert cur.
  induction n as [|c n IH]; intros cur Hfree; cbn [after_last_sep].
  - by rewrite append_empty_r.
  - destruct (Ascii.eqb_spec c "/") as [->|_].
    + destruct Hfree. by left.
    + rewrite IH by (intros Hin; apply Hfree; by right).
      by rewrite append_assoc.
Qed.

Lemma after_last_sep_component (d n cur : string) :
  after_last_sep (d +:+ "/" +:+ n) cur = after_last_sep n "".
Proof.
  revert cur. induction d as [|c d IH]; intros cur; [reflexivity|].
  change (after_last_sep (String c (d +:+ "/" +:+ n)) cur
          = after_last_sep n "").
  cbn [after_last_sep]. destruct (Ascii.eqb c "/"); apply IH.
Qed.

(** The base name of a path is its last component. *)
Lemma basename_component (d n : string) :
  slash_free n → basename (d +:+ "/" +:+ n) = n.
Proof.
  intros Hfree. unfold basename.
  by rewrite after_last_sep_component, after_last_sep_slash_free.
Qed.

Lemma write_file_other (t : gmap string node) (pc : string * string)
    (p : string) :
  pc.1 ≠ p → write_file t pc !! p = t !! p.
Proof.
  intros Hne. unfold write_file.
  destruct (t !! pc.1) as [[|c]|]; [done| |]; by rewrite lookup_insert_ne.
Qed.

Lemma writes_other (l : list (string * string)) (t : gmap string node)
    (p : string) :
  (∀ pc, In pc l → pc.1 ≠ p) → foldl write_file t l !! p = t !! p.
Proof.
  revert t. induction l as [|pc l IH]; intros t Hl; simpl; [done|].
  rewrite IH by (intros qc Hq; apply Hl; by right).
  apply write_file_other, Hl. by left.
Qed.

Lemma in_tree_false_ne (d p : string) : in_tree d p = false → d ≠ p.
Proof. intros Hp ->. by rewrite in_tree_refl in Hp. Qed.

End path_lemmas.

(** ** The /download handler *)

Section download_more.
Variables (ydl : YoutubeDL) (tmp url format_id : string).
Variable t : gmap string node.

Let opts := download_opts tmp format_id.

(** The file system at the end of a request: what the extractor left,
    with or without the directory's tree. *)
Lemma serve_download_fs (b : bool) :
  w_fs (Framework.serve_download b ydl tmp url format_id t)
  = after_download ydl tmp url format_id t
  ∨ w_fs (Framework.serve_download b ydl tmp url format_id t)
    = filter (λ kv : string * node, ¬ in_tree tmp kv.1)
        (after_download ydl tmp url format_id t).
Proof.
  destruct (try_block ydl opts url) as [[p n]|e] eqn:Htry.
  - destruct (after_download ydl tmp url format_id t !! p)
      as [[|body]|] eqn:Hdisk.
    2:{ right. by rewrite (serve_download_sent _ _ _ _ _ b p n body). }
    all: rewrite (serve_download_not_sent _ _ _ _ _ b p n)
      by (done || (intros ?; by rewrite Hdisk));
      destruct b; cbn [w_fs]; [by right | by left].
  - right. by rewrite (serve_download_failure _ _ _ _ _ b e).
Qed.

Lemma try_block_Raise (e : exception) :
  try_block ydl opts url = Raise e →
  extract_info ydl opts url true = Raise e
  ∨ ∃ i, extract_info ydl opts url true = Ret i
         ∧ prepare_filename ydl opts i = Raise e.
Proof.
  unfold try_block.
  destruct (extract_info ydl opts url true) as [i|e'];
    cbn [Py.bind]; [|intros [= <-]; by left].
  destruct (prepare_filename ydl opts i) as [p|e'] eqn:Hp;
    cbn [Py.bind]; [done|].
  intros [= <-]. right. by exists i.
Qed.

End download_more.

(** X11. A failure of [prepare_filename] after a download that went
    through is handled like a failure of the extractor call: the handler
    removes the temporary directory, with the downloaded files in it,
    before the 500 response that carries the error text, and defers
    nothing. *)
Theorem download_prepare_failure_removes_dir (b : bool) (ydl : YoutubeDL)
    (tmp url format_id : string) (t : gmap string node)
    (i : info) (e : exception) :
  extract_info ydl (download_opts tmp format_id) url true = Ret i →
  prepare_filename ydl (download_opts tmp format_id) i = Raise e →
  w_events (Framework.serve_download b ydl tmp url format_id t)
  = [Mkdtemp tmp; Extract url true; Rmtree tmp;
     Sent (SentError 500
             ("Error de yt-dlp al descargar: " +:+ str_exc e))] ∧
  background_tasks (Framework.serve_download b ydl tmp url format_id t)
  = [] ∧
  ∀ p, in_tree tmp p = true →
       w_fs (Framework.serve_download b ydl tmp url format_id t) !! p
       = None.
Proof.
  intros Hi Hp.
  assert (Htry : try_block ydl (download_opts tmp format_id) url = Raise e).
  { unfold try_block. rewrite Hi. cbn [Py.bind]. by rewrite Hp. }
  rewrite (serve_download_failure _ _ _ _ _ b e Htry).
  cbn [w_events w_fs background_tasks]. repeat split.
  intros p Hin. by apply cleaned_gone.
Qed.

Lemma download_prepare_failure_removes_dir_witness :
  w_events (Framework.serve_download false MoreExamples.ydl_prepare_fails
              Examples.tmp Examples.url "22" ∅)
  = [Mkdtemp Examples.tmp; Extract Examples.url true; Rmtree Examples.tmp;
     Sent (SentError 500
             ("Error de yt-dlp al descargar: "
              +:+ str_exc MoreExamples.no_template))] ∧
  background_tasks (Framework.serve_download false
                      MoreExamples.ydl_prepare_fails Examples.tmp
                      Examples.url "22" ∅)
  = [] ∧
  ∀ p, in_tree Examples.tmp p = true →
       w_fs (Framework.serve_download false MoreExamples.ydl_prepare_fails
               Examples.tmp Examples.url "22" ∅) !! p
       = None.
Proof.
  apply (download_prepare_failure_removes_dir false
           MoreExamples.ydl_prepare_fails Examples.tmp Examples.url "22" ∅
           (Examples.an_info [Examples.fmt_22]) MoreExamples.no_template).
  - reflexivity.
  - reflexivity.
Defined.

(** X12. The /download handler raises [HTTPException] in one case only:
    with status 500 and the fixed prefix followed by the text of the
    exception that the extractor call or [prepare_filename] raised. *)
Theorem download_http_errors (ydl : YoutubeDL)
    (tmp url format_id : string) (w0 : world)
    (status : Z) (detail : string) :
  (download_video ydl tmp url format_id w0).1
  = Raise (HTTPException status detail) →
  status = 500 ∧
  ∃ e0,
    detail = "Error de yt-dlp al descargar: " +:+ str_exc e0 ∧
    (extract_info ydl (download_opts tmp format_id) url true = Raise e0
     ∨ ∃ i, extract_info ydl (download_opts tmp format_id) url true = Ret i
            ∧ prepare_filename ydl (download_opts tmp format_id) i
              = Raise e0).
Proof.
  rewrite download_video_run.
  destruct (try_block ydl (download_opts tmp format_id) url)
    as [pn|e0] eqn:Htry; cbn [fst]; [done|].
  intros [= <- <-]. split; [done|]. exists e0. split; [done|].
  by apply try_block_Raise.
Qed.

Lemma download_http_errors_witness :
  500 = 500 ∧
  ∃ e0,
    "Error de yt-dlp al descargar: " +:+ str_exc MoreExamples.no_template
    = "Error de yt-dlp al descargar: " +:+ str_exc e0 ∧
    (extract_info MoreExamples.ydl_prepare_fails
       (download_opts Examples.tmp "22") Examples.url true = Raise e0
     ∨ ∃ i, extract_info MoreExamples.ydl_prepare_fails
              (download_opts Examples.tmp "22") Examples.url true = Ret i
            ∧ prepare_filename MoreExamples.ydl_prepare_fails
                (download_opts Examples.tmp "22") i
              = Raise e0).
Proof.
  apply (download_http_errors MoreExamples.ydl_prepare_fails
           Examples.tmp Examples.url "22" (Framework.start ∅)).
  rewrite download_video_run. reflexivity.
Defined.

(** X13. A /download request touches nothing outside its temporary
    directory: at the end of the request every path that is not the
    directory or below it is as the extractor left it, and one the
    extractor did not write is as it was before the request. *)
Theorem download_leaves_other_paths (b : bool) (ydl : YoutubeDL)
    (tmp url format_id : string) (t : gmap string node) (p : string) :
  in_tree tmp p = false →
  w_fs (Framework.serve_download b ydl tmp url format_id t) !! p
  = after_download ydl tmp url format_id t !! p ∧
  ((∀ pc, In pc (download_writes ydl (download_opts tmp format_id) url) →
          pc.1 ≠ p) →
   w_fs (Framework.serve_download b ydl tmp url format_id t) !! p
   = t !! p).
Proof.
  intros Hp.
  assert (Hend :
    w_fs (Framework.serve_download b ydl tmp url format_id t) !! p
    = after_download ydl tmp url format_id t !! p).
  { destruct (serve_download_fs ydl tmp url format_id t b) as [-> | ->];
      [done|]. by rewrite removed_tree_lookup, Hp. }
  split; [done|]. intros Hw. rewrite Hend. unfold after_download.
  rewrite writes_other by done. unfold mkdtemp.
  apply lookup_insert_ne. by apply in_tree_false_ne.
Qed.

Lemma download_leaves_other_paths_witness :
  w_fs (Framework.serve_download false
          (Examples.ydl_reporting [Examples.fmt_22]) Examples.tmp
          Examples.url "22" MoreExamples.disk_before) !! "/srv/keep.txt"
  = MoreExamples.disk_before !! "/srv/keep.txt".
Proof.
  apply (download_leaves_other_paths false
           (Examples.ydl_reporting [Examples.fmt_22]) Examples.tmp
           Examples.url "22" MoreExamples.disk_before "/srv/keep.txt").
  - vm_compute. reflexivity.
  - intros pc [<-|[]]. discriminate.
Defined.



(** X15. For a directory name that is not empty and does not end with a
    slash, as [mkdtemp] returns them, the output template handed to the
    extractor is the directory, a slash and the fixed template: it lies
    below the temporary directory and its base name is the template. *)
Theorem download_outtmpl_in_temp_dir (tmp format_id : string) :
  tmp ≠ "" →
  endswith tmp "/" = false →
  opt_outtmpl (download_opts tmp format_id)
  = Some (tmp +:+ "/" +:+ "%(title)s.%(ext)s") ∧
  in_tree tmp (tmp +:+ "/" +:+ "%(title)s.%(ext)s") = true ∧
  basename (tmp +:+ "/" +:+ "%(title)s.%(ext)s") = "%(title)s.%(ext)s".
Proof.
  intros Hne Hend. repeat split.
  - unfold download_opts, path_join. cbn [opt_outtmpl].
    replace (String.prefix "/" "%(title)s.%(ext)s") with false
      by (vm_compute; reflexivity).
    rewrite Hend. by destruct (String.eqb_spec tmp "").
  - apply in_tree_below.
  - apply basename_component. vm_compute. intuition discriminate.
Qed.

Lemma download_outtmpl_in_temp_dir_witness :
  opt_outtmpl (download_opts Examples.tmp "22")
  = Some (Examples.tmp +:+ "/" +:+ "%(title)s.%(ext)s") ∧
  in_tree Examples.tmp (Examples.tmp +:+ "/" +:+ "%(title)s.%(ext)s")
  = true ∧
  basename (Examples.tmp +:+ "/" +:+ "%(title)s.%(ext)s")
  = "%(title)s.%(ext)s".
Proof.
  apply (download_outtmpl_in_temp_dir Examples.tmp "22").
  - discriminate.
  - vm_compute. reflexivity.
Defined.

(** X16. The suggested name does not depend on the directory the file
    was downloaded to: when the extractor names a file by a directory, a
    slash and a last component without slash, the response's file name is
    the sanitized last component. *)
Theorem download_name_is_sanitized_last_component (ydl : YoutubeDL)
    (tmp url format_id : string) (w0 w : world) (r : FileResponse)
    (d n : string) :
  download_video ydl tmp url format_id w0 = (Ret r, w) →
  path r = d +:+ "/" +:+ n →
  slash_free n →
  sanitize_filename n = Some (filename r).
Proof.
  rewrite download_video_run.
  destruct (try_block ydl (download_opts tmp format_id) url)
    as [[p m]|e] eqn:Htry; [|done].
  intros [= <- <-]. cbn [path filename fst snd]. intros -> Hfree.
  destruct (try_block_Ret _ _ _ _ _ _ Htry) as (i & _ & _ & Hm).
  by rewrite basename_component in Hm.
Qed.

Lemma download_name_is_sanitized_last_component_witness :
  sanitize_filename "My:Video.mp4" = Some (filename Examples.a_response).
Proof.
  apply (download_name_is_sanitized_last_component
           (Examples.ydl_reporting [Examples.fmt_22]) Examples.tmp
           Examples.url "22" (Framework.start ∅) Examples.world_at_return
           Examples.a_response Examples.tmp "My:Video.mp4").
  - vm_compute. reflexivity.
  - reflexivity.
  - vm_compute. intuition discriminate.
Defined.


(** ** The quality label *)

Lemma append_p_nonempty (x : string) : x +:+ "p" ≠ "".
Proof. by destruct x. Qed.

Lemma quality_label_nonempty (f : dict) :
  get f "height" ≠ VStr "" → quality_label f ≠ "".
Proof.
  intros Hh. unfold quality_label, or_.
  destruct (get f "format_note") as [|[|]|n|note]; cbn [truthy].
  - destruct (get f "height") as [|[|]|h|s]; cbn [isinstance_int str];
      try discriminate; try apply append_p_nonempty. congruence.
  - discriminate.
  - destruct (get f "height") as [|[|]|h|s]; cbn [isinstance_int str];
      try discriminate; try apply append_p_nonempty. congruence.
  - destruct (n =? 0); cbn [negb isinstance_int str];
      [|apply append_p_nonempty].
    destruct (get f "height") as [|[|]|h|s]; cbn [isinstance_int str];
      try discriminate; try apply append_p_nonempty. congruence.
  - destruct (String.eqb_spec note "") as [->|Hne];
      cbn [negb isinstance_int str]; [|done].
    destruct (get f "height") as [|[|]|h|s]; cbn [isinstance_int str];
      try discriminate; try apply append_p_nonempty. congruence.
Qed.

(** X17. A listed format never has an empty quality label, unless the
    record's height entry is itself the empty string: an empty note is
    passed over, an integer gets its p, and a missing height gives
    [None] spelled out. *)
Theorem listed_quality_nonempty `{Pydantic} (f : dict) (vf : VideoFormat) :
  make_video_format f = Ret vf →
  get f "height" ≠ VStr "" →
  quality vf ≠ "".
Proof.
  intros Hq%make_video_format_quality Hh. rewrite Hq.
  by apply quality_label_nonempty.
Qed.

Lemma listed_quality_nonempty_witness :
  quality {| format_id := "22"; quality := "720p"; ext := "mp4";
             filesize := None |} ≠ "".
Proof.
  apply (listed_quality_nonempty Examples.fmt_empty_note).
  - vm_compute. reflexivity.
  - vm_compute. discriminate.
Defined.
